(** * QScrollArea: the scroll-state engine of [ui/src/components/scroll-area/QScrollArea.js]

    A shallow embedding of the stateful logic of the component's [setup]
    function: the per-axis geometry (percentage, thumb size, thumb
    visibility, thumb pixel offset), the thumb drag handler, the track click
    handler, the temporary-visibility timer and the public position setter.
    Rendering is left out. *)

From Stdlib Require Import QArith Qround Qminmax Qabs ZArith Lia Lqa List String Bool.
From Stdlib Require SpecFloat.
Import ListNotations.

Local Open Scope Q_scope.

(** ** JavaScript numbers

    A JavaScript number is either NaN, an infinity, or a finite value.
    Finite values are kept as exact rationals in lowest terms: the rounding
    error of binary64 arithmetic and the sign of zero are not modelled (a
    zero divisor behaves as [+0]). *)

Module Js.

Inductive num : Type :=
| NaN : num
| Inf (negative : bool) : num
| Fin (q : Q) : num.

Definition fin (q : Q) : num := Fin (Qred q).

Definition ofZ (z : Z) : num := Fin (inject_Z z).

Definition Qsign_neg (q : Q) : bool := (Qnum q <? 0)%Z.

Definition Qis_zero (q : Q) : bool := (Qnum q =? 0)%Z.

Definition neg (a : num) : num :=
  match a with
  | NaN => NaN
  | Inf s => Inf (negb s)
  | Fin q => fin (- q)
  end.

Definition add (a b : num) : num :=
  match a, b with
  | NaN, _ | _, NaN => NaN
  | Inf s, Inf t => if Bool.eqb s t then Inf s else NaN
  | Inf s, Fin _ | Fin _, Inf s => Inf s
  | Fin p, Fin q => fin (p + q)
  end.

Definition sub (a b : num) : num := add a (neg b).

Definition mul (a b : num) : num :=
  match a, b with
  | NaN, _ | _, NaN => NaN
  | Inf s, Inf t => Inf (xorb s t)
  | Inf s, Fin q | Fin q, Inf s =>
      if Qis_zero q then NaN else Inf (xorb s (Qsign_neg q))
  | Fin p, Fin q => fin (p * q)
  end.

Definition div (a b : num) : num :=
  match a, b with
  | NaN, _ | _, NaN => NaN
  | Inf _, Inf _ => NaN
  | Inf s, Fin q => Inf (xorb s (Qsign_neg q))
  | Fin _, Inf _ => Fin 0
  | Fin p, Fin q =>
      if Qis_zero q
      then (if Qis_zero p then NaN else Inf (Qsign_neg p))
      else fin (p / q)
  end.

(** [a <= b] of JavaScript: false as soon as one side is NaN. *)
Definition leb (a b : num) : bool :=
  match a, b with
  | NaN, _ | _, NaN => false
  | Inf true, _ => true
  | _, Inf false => true
  | Inf false, _ => false
  | _, Inf true => false
  | Fin p, Fin q => Qle_bool p q
  end.

(** [a === b] on numbers: NaN differs from everything, itself included. *)
Definition eqb (a b : num) : bool :=
  match a, b with
  | NaN, _ | _, NaN => false
  | Inf s, Inf t => Bool.eqb s t
  | Fin p, Fin q => Qeq_bool p q
  | _, _ => false
  end.

(** [Math.max] and [Math.min]: NaN as soon as one argument is NaN. *)
Definition max (a b : num) : num :=
  match a, b with
  | NaN, _ | _, NaN => NaN
  | _, _ => if leb a b then b else a
  end.

Definition min (a b : num) : num :=
  match a, b with
  | NaN, _ | _, NaN => NaN
  | _, _ => if leb a b then a else b
  end.

(** [Math.round]: the nearest integer, a tie going towards +Infinity. *)
Definition round (a : num) : num :=
  match a with
  | Fin q => ofZ (Qfloor (q + (1 # 2)))
  | _ => a
  end.

Definition isFinite (a : num) : bool :=
  match a with
  | Fin _ => true
  | _ => false
  end.

Definition isNaN (a : num) : bool :=
  match a with
  | NaN => true
  | _ => false
  end.

(** [ToNumber] of a variable that may still be [undefined]. *)
Definition toNumber (a : option num) : num :=
  match a with
  | Some v => v
  | None => NaN
  end.

(** [value a q]: the number [a] is finite and denotes the rational [q]. *)
Definition value (a : num) (q : Q) : Prop :=
  match a with
  | Fin q' => q' == q
  | _ => False
  end.

End Js.

(** Modelled from the spec: [between] of [utils/format.js] is not among the
    sources modelled here.  The spec calls it a clamp of a value to [[lo, hi]]
    (sections 3 and 4.1); a NaN value is not replaced (section 4.1: the
    [0/0] of the percentage reaches the callers as NaN), and the lower bound
    wins when the bounds cross (section 3: the thumb may exceed the
    container when the container is smaller than 50). *)
Definition between (v lo hi : Js.num) : Js.num :=
  if Js.leb hi lo then lo else Js.min hi (Js.max lo v).

(** ** Axes *)

Inductive Axis : Type := vertical | horizontal.

Inductive OffsetProp : Type := offsetX | offsetY.
Inductive ScrollProp : Type := scrollTop | scrollLeft.
Inductive Direction : Type := up | down | left | right.
Inductive DistProp : Type := dist_x | dist_y.

Record DirProps : Type := {
  offset : OffsetProp;
  scroll : ScrollProp;
  dir : Direction;
  dist : DistProp
}.

Definition dirProps (axis : Axis) : DirProps :=
  match axis with
  | vertical =>
      {| offset := offsetY; scroll := scrollTop; dir := down; dist := dist_y |}
  | horizontal =>
      {| offset := offsetX; scroll := scrollLeft; dir := right; dist := dist_x |}
  end.

Definition Direction_eqb (a b : Direction) : bool :=
  match a, b with
  | up, up | down, down | left, left | right, right => true
  | _, _ => false
  end.

Definition axisList : list string := ["vertical"%string; "horizontal"%string].

(** [axisList.includes(axis)] *)
Definition includes (l : list string) (s : string) : bool :=
  existsb (String.eqb s) l.

(** ** State of a component instance *)

(** A value per axis, as in [container[axis]] and [scroll[axis]]. *)
Record PerAxis (A : Type) : Type := {
  ofVertical : A;
  ofHorizontal : A
}.
Arguments ofVertical {A} _.
Arguments ofHorizontal {A} _.

Definition get {A} (axis : Axis) (p : PerAxis A) : A :=
  match axis with
  | vertical => ofVertical p
  | horizontal => ofHorizontal p
  end.

Definition set {A} (axis : Axis) (a : A) (p : PerAxis A) : PerAxis A :=
  match axis with
  | vertical => {| ofVertical := a; ofHorizontal := ofHorizontal p |}
  | horizontal => {| ofVertical := ofVertical p; ofHorizontal := a |}
  end.

Definition both {A} (a : A) : PerAxis A :=
  {| ofVertical := a; ofHorizontal := a |}.

(** The props the engine reads, and whether an [onScroll] listener is
    attached to the instance ([vmHasListener (vm, 'onScroll')]). *)
Record Props : Type := {
  visible : option bool;
  delay : nat;
  onScroll : bool
}.

(** A call of [setVerticalScrollPosition] or [setHorizontalScrollPosition]. *)
Record ScrollCall : Type := {
  callAxis : Axis;
  callOffset : Js.num;
  callDuration : option Js.num
}.

(** The scroll target [targetRef.value] (taken as mounted): its two scroll
    offsets as last assigned, and the calls made on it through the setters
    of [utils/scroll.js]. *)
Record Target : Type := {
  targetScrollTop : Js.num;
  targetScrollLeft : Js.num;
  scrollCalls : list ScrollCall
}.

(** The timeouts of the event loop: the current time in milliseconds, the
    next handle [setTimeout] hands out, and the pending timeouts of
    [startTimer] as pairs of a handle and the time it is due.  Their
    callback is always [() => { tempShowing.value = false }]. *)
Record Timeouts : Type := {
  now : nat;
  nextHandle : nat;
  pending : list (nat * nat)
}.

Record State : Type := {
  tempShowing : bool;
  panning : bool;
  hover : bool;
  container : PerAxis Js.num;
  position : PerAxis Js.num;
  size : PerAxis Js.num;
  thumbRef : PerAxis bool;
  timer : option nat;
  panRefPos : option Js.num;
  target : Target;
  timeouts : Timeouts;
  console : list string;
  emitScrollCalls : nat;
  dispatched : list Axis
}.

Definition initial : State := {|
  tempShowing := false;
  panning := false;
  hover := false;
  container := both (Js.Fin 0);
  position := both (Js.Fin 0);
  size := both (Js.Fin 0);
  thumbRef := both false;
  timer := None;
  panRefPos := None;
  target := {| targetScrollTop := Js.Fin 0; targetScrollLeft := Js.Fin 0;
               scrollCalls := [] |};
  timeouts := {| now := 0; nextHandle := 0; pending := [] |};
  console := [];
  emitScrollCalls := 0;
  dispatched := []
|}.

(** Field updates. *)
Definition with_tempShowing (b : bool) (st : State) : State :=
  {| tempShowing := b; panning := panning st; hover := hover st;
     container := container st; position := position st; size := size st;
     thumbRef := thumbRef st; timer := timer st; panRefPos := panRefPos st;
     target := target st; timeouts := timeouts st; console := console st;
     emitScrollCalls := emitScrollCalls st; dispatched := dispatched st |}.

Definition with_panning (b : bool) (st : State) : State :=
  {| tempShowing := tempShowing st; panning := b; hover := hover st;
     container := container st; position := position st; size := size st;
     thumbRef := thumbRef st; timer := timer st; panRefPos := panRefPos st;
     target := target st; timeouts := timeouts st; console := console st;
     emitScrollCalls := emitScrollCalls st; dispatched := dispatched st |}.

Definition with_hover (b : bool) (st : State) : State :=
  {| tempShowing := tempShowing st; panning := panning st; hover := b;
     container := container st; position := position st; size := size st;
     thumbRef := thumbRef st; timer := timer st; panRefPos := panRefPos st;
     target := target st; timeouts := timeouts st; console := console st;
     emitScrollCalls := emitScrollCalls st; dispatched := dispatched st |}.

Definition with_container (c : PerAxis Js.num) (st : State) : State :=
  {| tempShowing := tempShowing st; panning := panning st; hover := hover st;
     container := c; position := position st; size := size st;
     thumbRef := thumbRef st; timer := timer st; panRefPos := panRefPos st;
     target := target st; timeouts := timeouts st; console := console st;
     emitScrollCalls := emitScrollCalls st; dispatched := dispatched st |}.

Definition with_position (p : PerAxis Js.num) (st : State) : State :=
  {| tempShowing := tempShowing st; panning := panning st; hover := hover st;
     container := container st; position := p; size := size st;
     thumbRef := thumbRef st; timer := timer st; panRefPos := panRefPos st;
     target := target st; timeouts := timeouts st; console := console st;
     emitScrollCalls := emitScrollCalls st; dispatched := dispatched st |}.

Definition with_size (s : PerAxis Js.num) (st : State) : State :=
  {| tempShowing := tempShowing st; panning := panning st; hover := hover st;
     container := container st; position := position st; size := s;
     thumbRef := thumbRef st; timer := timer st; panRefPos := panRefPos st;
     target := target st; timeouts := timeouts st; console := console st;
     emitScrollCalls := emitScrollCalls st; dispatched := dispatched st |}.

Definition with_thumbRef (r : PerAxis bool) (st : State) : State :=
  {| tempShowing := tempShowing st; panning := panning st; hover := hover st;
     container := container st; position := position st; size := size st;
     thumbRef := r; timer := timer st; panRefPos := panRefPos st;
     target := target st; timeouts := timeouts st; console := console st;
     emitScrollCalls := emitScrollCalls st; dispatched := dispatched st |}.

Definition with_timer (t : option nat) (st : State) : State :=
  {| tempShowing := tempShowing st; panning := panning st; hover := hover st;
     container := container st; position := position st; size := size st;
     thumbRef := thumbRef st; timer := t; panRefPos := panRefPos st;
     target := target st; timeouts := timeouts st; console := console st;
     emitScrollCalls := emitScrollCalls st; dispatched := dispatched st |}.

Definition with_panRefPos (p : option Js.num) (st : State) : State :=
  {| tempShowing := tempShowing st; panning := panning st; hover := hover st;
     container := container st; position := position st; size := size st;
     thumbRef := thumbRef st; timer := timer st; panRefPos := p;
     target := target st; timeouts := timeouts st; console := console st;
     emitScrollCalls := emitScrollCalls st; dispatched := dispatched st |}.

Definition with_target (t : Target) (st : State) : State :=
  {| tempShowing := tempShowing st; panning := panning st; hover := hover st;
     container := container st; position := position st; size := size st;
     thumbRef := thumbRef st; timer := timer st; panRefPos := panRefPos st;
     target := t; timeouts := timeouts st; console := console st;
     emitScrollCalls := emitScrollCalls st; dispatched := dispatched st |}.

Definition with_timeouts (t : Timeouts) (st : State) : State :=
  {| tempShowing := tempShowing st; panning := panning st; hover := hover st;
     container := container st; position := position st; size := size st;
     thumbRef := thumbRef st; timer := timer st; panRefPos := panRefPos st;
     target := target st; timeouts := t; console := console st;
     emitScrollCalls := emitScrollCalls st; dispatched := dispatched st |}.

Definition with_console (c : list string) (st : State) : State :=
  {| tempShowing := tempShowing st; panning := panning st; hover := hover st;
     container := container st; position := position st; size := size st;
     thumbRef := thumbRef st; timer := timer st; panRefPos := panRefPos st;
     target := target st; timeouts := timeouts st; console := c;
     emitScrollCalls := emitScrollCalls st; dispatched := dispatched st |}.

Definition with_emitScrollCalls (n : nat) (st : State) : State :=
  {| tempShowing := tempShowing st; panning := panning st; hover := hover st;
     container := container st; position := position st; size := size st;
     thumbRef := thumbRef st; timer := timer st; panRefPos := panRefPos st;
     target := target st; timeouts := timeouts st; console := console st;
     emitScrollCalls := n; dispatched := dispatched st |}.

Definition with_dispatched (d : list Axis) (st : State) : State :=
  {| tempShowing := tempShowing st; panning := panning st; hover := hover st;
     container := container st; position := position st; size := size st;
     thumbRef := thumbRef st; timer := timer st; panRefPos := panRefPos st;
     target := target st; timeouts := timeouts st; console := console st;
     emitScrollCalls := emitScrollCalls st; dispatched := d |}.

(** ** Events delivered by the collaborators *)

Module Distance.
Record t : Type := { x : Js.num; y : Js.num }.
End Distance.

(** A pan event of the [TouchPan] directive. *)
Record PanEvent : Type := {
  isFirst : bool;
  isFinal : bool;
  distance : Distance.t;
  direction : Direction
}.

(** A mouse event on a bar, with the two offsets the handler reads. *)
Record MouseEvt : Type := {
  evtOffsetX : Js.num;
  evtOffsetY : Js.num
}.

(** [e.distance[dProp.dist]] *)
Definition distanceAt (p : DistProp) (d : Distance.t) : Js.num :=
  match p with
  | dist_x => Distance.x d
  | dist_y => Distance.y d
  end.

(** [evt[dirProps[axis].offset]] *)
Definition offsetAt (p : OffsetProp) (evt : MouseEvt) : Js.num :=
  match p with
  | offsetX => evtOffsetX evt
  | offsetY => evtOffsetY evt
  end.

(** ** Timeouts *)

Definition setTimeout (ms : nat) (t : Timeouts) : nat * Timeouts :=
  (nextHandle t,
   {| now := now t;
      nextHandle := S (nextHandle t);
      pending := pending t ++ [(nextHandle t, now t + ms)%nat] |}).

(** [clearTimeout (undefined)] does nothing. *)
Definition clearTimeout (h : option nat) (t : Timeouts) : Timeouts :=
  match h with
  | None => t
  | Some id =>
      {| now := now t;
         nextHandle := nextHandle t;
         pending := filter (fun p => negb (fst p =? id)%nat) (pending t) |}
  end.

Definition isDue (time : nat) (p : nat * nat) : bool := (snd p <=? time)%nat.

(** ** Calls on the scroll target *)

(** Modelled from the spec: [setVerticalScrollPosition] and
    [setHorizontalScrollPosition] of [utils/scroll.js] are not among the
    sources modelled here.  The spec (sections 1 and 4.6) has them write an
    offset through to the scroll target, optionally animated over a
    duration, the animation being an external collaborator: the call is
    recorded on the target with its arguments. *)
Definition setVerticalScrollPosition
  (el : Target) (off : Js.num) (duration : option Js.num) : Target :=
  {| targetScrollTop := targetScrollTop el;
     targetScrollLeft := targetScrollLeft el;
     scrollCalls := scrollCalls el
       ++ [{| callAxis := vertical; callOffset := off; callDuration := duration |}] |}.

Definition setHorizontalScrollPosition
  (el : Target) (off : Js.num) (duration : option Js.num) : Target :=
  {| targetScrollTop := targetScrollTop el;
     targetScrollLeft := targetScrollLeft el;
     scrollCalls := scrollCalls el
       ++ [{| callAxis := horizontal; callOffset := off; callDuration := duration |}] |}.

(** [el[prop] = off] *)
Definition assignScroll (p : ScrollProp) (off : Js.num) (el : Target) : Target :=
  match p with
  | scrollTop =>
      {| targetScrollTop := off; targetScrollLeft := targetScrollLeft el;
         scrollCalls := scrollCalls el |}
  | scrollLeft =>
      {| targetScrollTop := targetScrollTop el; targetScrollLeft := off;
         scrollCalls := scrollCalls el |}
  end.

Definition readScroll (p : ScrollProp) (el : Target) : Js.num :=
  match p with
  | scrollTop => targetScrollTop el
  | scrollLeft => targetScrollLeft el
  end.

Definition wrongAxisMessage : string :=
  "[QScrollArea]: wrong first param of setScrollPosition (vertical/horizontal)".

(** ** The [setup] function *)

Section setup.

Variable props : Props.

(** [scroll.vertical.percentage] and [scroll.horizontal.percentage]: the two
    computed values differ by the axis only.  The arithmetic is exact here;
    in binary64 the product [p * 10000] can fall just below a tie that the
    exact product reaches, and [Math.round] then rounds it down where this
    definition rounds up ([B64.percentage] below computes the doubles). *)
Definition percentage (axis : Axis) (st : State) : Js.num :=
  let p :=
    between
      (Js.div (get axis (position st))
              (Js.sub (get axis (size st)) (get axis (container st))))
      (Js.ofZ 0) (Js.ofZ 1) in
  Js.div (Js.round (Js.mul p (Js.ofZ 10000))) (Js.ofZ 10000).

Definition thumbHidden (axis : Axis) (st : State) : bool :=
  (negb (match visible props with
         | None => hover st
         | Some v => v
         end)
   && negb (tempShowing st)
   && negb (panning st))
  || Js.leb (get axis (size st)) (Js.add (get axis (container st)) (Js.ofZ 1)).

Definition thumbSize (axis : Axis) (st : State) : Js.num :=
  Js.round
    (between
       (Js.div (Js.mul (get axis (container st)) (get axis (container st)))
               (get axis (size st)))
       (Js.ofZ 50)
       (get axis (container st))).

(** The two pixel values of [scroll[axis].style]: [pos] ([top] or [left])
    and [thumbSize] ([height] or [width]). *)
Record ThumbStyle : Type := {
  stylePos : Js.num;
  styleSize : Js.num
}.

Definition style (axis : Axis) (st : State) : ThumbStyle :=
  let thumbSize := thumbSize axis st in
  let pos := Js.mul (percentage axis st)
                    (Js.sub (get axis (container st)) thumbSize) in
  {| stylePos := pos; styleSize := thumbSize |}.

(** Modelled from the spec: [debounce] of [utils/debounce.js] is not among
    the sources modelled here.  The spec (section 4.5) has [emitScroll]
    coalesce its calls into one emission per tick: the calls are counted. *)
Definition emitScroll (st : State) : State :=
  with_emitScrollCalls (S (emitScrollCalls st)) st.

Definition startTimer (st : State) : State :=
  let st1 :=
    if tempShowing st
    then with_timeouts (clearTimeout (timer st) (timeouts st)) st
    else with_tempShowing true st in
  let '(h, t) := setTimeout (delay props) (timeouts st1) in
  let st2 := with_timer (Some h) (with_timeouts t st1) in
  if onScroll props then emitScroll st2 else st2.

(** The event loop lets [ms] milliseconds pass: the timeouts due by then
    run (each sets [tempShowing.value = false]) and leave the pending list. *)
Definition advance (ms : nat) (st : State) : State :=
  let time := (now (timeouts st) + ms)%nat in
  let st1 :=
    with_timeouts
      {| now := time;
         nextHandle := nextHandle (timeouts st);
         pending := filter (fun p => negb (isDue time p)) (pending (timeouts st)) |}
      st in
  if existsb (isDue time) (pending (timeouts st))
  then with_tempShowing false st1
  else st1.

Definition localSetScrollPosition
  (axis : string) (off : Js.num) (duration : option Js.num) (st : State) : State :=
  if negb (includes axisList axis)
  then with_console (console st ++ [wrongAxisMessage]) st
  else
    let fn :=
      if String.eqb axis "vertical"
      then setVerticalScrollPosition
      else setHorizontalScrollPosition in
    with_target (fn (target st) off duration) st.

Definition updateContainer (height width : Js.num) (st : State) : State :=
  let '(st1, change1) :=
    if negb (Js.eqb (get vertical (container st)) height)
    then (with_container (set vertical height (container st)) st, true)
    else (st, false) in
  let '(st2, change2) :=
    if negb (Js.eqb (get horizontal (container st1)) width)
    then (with_container (set horizontal width (container st1)) st1, true)
    else (st1, change1) in
  if change2 then startTimer st2 else st2.

Definition updateScroll (top left : Js.num) (st : State) : State :=
  let '(st1, change1) :=
    if negb (Js.eqb (get vertical (position st)) top)
    then (with_position (set vertical top (position st)) st, true)
    else (st, false) in
  let '(st2, change2) :=
    if negb (Js.eqb (get horizontal (position st1)) left)
    then (with_position (set horizontal left (position st1)) st1, true)
    else (st1, change1) in
  if change2 then startTimer st2 else st2.

Definition updateScrollSize (height width : Js.num) (st : State) : State :=
  let st1 :=
    if negb (Js.eqb (get horizontal (size st)) width)
    then startTimer (with_size (set horizontal width (size st)) st)
    else st in
  if negb (Js.eqb (get vertical (size st1)) height)
  then startTimer (with_size (set vertical height (size st1)) st1)
  else st1.

Definition setScroll (off : Js.num) (axis : Axis) (st : State) : State :=
  with_target (assignScroll (scroll (dirProps axis)) off (target st)) st.

(** [(data.size.value - containerSize) / (containerSize - data.thumbSize.value)] *)
Definition multiplier (axis : Axis) (st : State) : Js.num :=
  let containerSize := get axis (container st) in
  Js.div (Js.sub (get axis (size st)) containerSize)
         (Js.sub containerSize (thumbSize axis st)).

(** [(e.direction === dProp.dir ? 1 : -1) * distance] *)
Definition signedDistance (e : PanEvent) (axis : Axis) : Js.num :=
  let dProp := dirProps axis in
  Js.mul (if Direction_eqb (direction e) (dir dProp) then Js.ofZ 1 else Js.ofZ (-1))
         (distanceAt (dist dProp) (distance e)).

(** The [pos] of [onPanThumb]. *)
Definition panPosition (e : PanEvent) (axis : Axis) (st : State) : Js.num :=
  Js.add (Js.toNumber (panRefPos st))
         (Js.mul (signedDistance e axis) (multiplier axis st)).

(** The first conditional of [onPanThumb]: [None] where the handler
    returns, the state after the branch otherwise. *)
Definition panGate (e : PanEvent) (axis : Axis) (st : State) : option State :=
  if isFirst e then
    if thumbHidden axis st then None
    else Some (with_panning true
                 (with_panRefPos (Some (get axis (position st))) st))
  else if negb (panning st) then None
  else Some st.

Definition onPanThumb (e : PanEvent) (axis : Axis) (st : State) : State :=
  match panGate e axis st with
  | None => st
  | Some st1 =>
      let st2 := if isFinal e then with_panning false st1 else st1 in
      setScroll (panPosition e axis st2) axis st2
  end.

Definition onMousedown (evt : MouseEvt) (axis : Axis) (st : State) : State :=
  if negb (thumbHidden axis st) then
    let pos := Js.sub (offsetAt (offset (dirProps axis)) evt)
                      (Js.div (thumbSize axis st) (Js.ofZ 2)) in
    let st1 :=
      setScroll (Js.mul (Js.div pos (get axis (container st))) (get axis (size st)))
                axis st in
    if get axis (thumbRef st1)
    then with_dispatched (dispatched st1 ++ [axis]) st1
    else st1
  else st.

Definition onVerticalMousedown (evt : MouseEvt) : State -> State :=
  onMousedown evt vertical.

Definition onHorizontalMousedown (evt : MouseEvt) : State -> State :=
  onMousedown evt horizontal.

Definition onMouseenter (st : State) : State := with_hover true st.

Definition onMouseleave (st : State) : State := with_hover false st.

Definition getScrollPosition (st : State) : Js.num * Js.num :=
  (get vertical (position st), get horizontal (position st)).

(** [scroll[axis]] for a key given as a string. *)
Definition axisOfString (axis : string) : option Axis :=
  if String.eqb axis "vertical" then Some vertical
  else if String.eqb axis "horizontal" then Some horizontal
  else None.

(** [setScrollPercentage] reads [scroll[axis].size.value] before it calls
    the position setter: for any other key that read throws, which is the
    [None] here. *)
Definition setScrollPercentage
  (axis : string) (percent : Js.num) (duration : option Js.num) (st : State)
  : option State :=
  match axisOfString axis with
  | None => None
  | Some a =>
      Some (localSetScrollPosition axis
              (Js.mul percent (Js.sub (get a (size st)) (get a (container st))))
              duration st)
  end.

(** ** Runs of the engine *)

(** What can happen to an instance: a handler is called by a collaborator,
    the host calls one of the two public setters, the renderer mounts or
    unmounts a thumb element ([scroll[axis].ref]), or time passes. *)
Inductive Event : Type :=
| EvContainerResize (height width : Js.num)
| EvContentResize (height width : Js.num)
| EvNativeScroll (top left : Js.num)
| EvPan (e : PanEvent) (axis : Axis)
| EvMousedown (evt : MouseEvt) (axis : Axis)
| EvMouseenter
| EvMouseleave
| EvSetScrollPosition (axis : string) (off : Js.num) (duration : option Js.num)
| EvSetScrollPercentage (axis : string) (percent : Js.num) (duration : option Js.num)
| EvThumbRef (axis : Axis) (mounted : bool)
| EvTime (ms : nat).

Definition handle (ev : Event) (st : State) : State :=
  match ev with
  | EvContainerResize h w => updateContainer h w st
  | EvContentResize h w => updateScrollSize h w st
  | EvNativeScroll t l => updateScroll t l st
  | EvPan e axis => onPanThumb e axis st
  | EvMousedown evt axis => onMousedown evt axis st
  | EvMouseenter => onMouseenter st
  | EvMouseleave => onMouseleave st
  | EvSetScrollPosition axis off duration =>
      localSetScrollPosition axis off duration st
  | EvSetScrollPercentage axis percent duration =>
      (* a call that throws leaves the instance as it was *)
      match setScrollPercentage axis percent duration st with
      | Some st' => st'
      | None => st
      end
  | EvThumbRef axis mounted => with_thumbRef (set axis mounted (thumbRef st)) st
  | EvTime ms => advance ms st
  end.

Definition run (evs : list Event) (st : State) : State :=
  fold_left (fun s ev => handle ev s) evs st.

End setup.

(** ** The percentage in binary64

    The same computation on IEEE 754 binary64 numbers, the numbers of
    JavaScript, with every operation rounded to nearest-even as the language
    does, for the values where the exact arithmetic of [Js] and the doubles
    part. *)

Module B64.

Definition prec : Z := 53.
Definition emax : Z := 1024.

Definition num : Type := SpecFloat.spec_float.

Definition NaN : num := SpecFloat.S754_nan.

Definition ofZ (z : Z) : num := SpecFloat.binary_normalize prec emax z 0 false.

Definition sub : num -> num -> num := SpecFloat.SFsub prec emax.
Definition mul : num -> num -> num := SpecFloat.SFmul prec emax.
Definition div : num -> num -> num := SpecFloat.SFdiv prec emax.
Definition leb : num -> num -> bool := SpecFloat.SFleb.
Definition ltb : num -> num -> bool := SpecFloat.SFltb.
Definition eqb : num -> num -> bool := SpecFloat.SFeqb.

Definition isNaN (a : num) : bool :=
  match a with
  | SpecFloat.S754_nan => true
  | _ => false
  end.

(** [Math.max] and [Math.min]: NaN as soon as one argument is NaN, and
    [+0] above [-0]. *)
Definition max (a b : num) : num :=
  if isNaN a || isNaN b then NaN
  else if ltb a b then b
  else if ltb b a then a
  else match a with
       | SpecFloat.S754_zero true => b
       | _ => a
       end.

Definition min (a b : num) : num :=
  if isNaN a || isNaN b then NaN
  else if ltb a b then a
  else if ltb b a then b
  else match a with
       | SpecFloat.S754_zero false => b
       | _ => a
       end.

(** [Math.round]: the integer nearest to the exact value of the double, a
    tie going towards +Infinity; a zero result keeps the sign of the
    argument. *)
Definition round (a : num) : num :=
  match a with
  | SpecFloat.S754_finite s m e =>
      if (0 <=? e)%Z then a
      else
        let n := if s then Z.neg m else Z.pos m in
        let k := ((2 * n + 2 ^ (- e)) / 2 ^ (1 - e))%Z in
        if (k =? 0)%Z then SpecFloat.S754_zero s else ofZ k
  | _ => a
  end.

(** Modelled from the spec: [between] of [utils/format.js], as for the exact
    numbers above. *)
Definition between (v lo hi : num) : num :=
  if leb hi lo then lo else min hi (max lo v).

Definition percentage (pos size container : num) : num :=
  let p := between (div pos (sub size container)) (ofZ 0) (ofZ 1) in
  div (round (mul p (ofZ 10000))) (ofZ 10000).

End B64.

(** For a container of 200, content of 1000 and an integer position: the
    double that the code returns is [k / 10000] for the integer [k] of the
    exact computation, or for [k - 1] when the exact product lies on a
    tie. *)
Definition agreesWithBinary64 (pos : nat) : bool :=
  let x := inject_Z (Z.of_nat pos) / 800 * 10000 in
  let k := Qfloor (x + (1 # 2)) in
  let r := B64.percentage (B64.ofZ (Z.of_nat pos)) (B64.ofZ 1000) (B64.ofZ 200) in
  B64.eqb r (B64.div (B64.ofZ k) (B64.ofZ 10000))
  || (Qeq_bool (inject_Z k) (x + (1 # 2))
      && B64.eqb r (B64.div (B64.ofZ (k - 1)) (B64.ofZ 10000))).

(** ** Notions used in the statements *)

(** The props at their defaults, without an [onScroll] listener. *)
Definition defaultProps : Props :=
  {| visible := None; delay := 1000; onScroll := false |}.

Definition panEvent (first final : bool) (d : Z) (towards : Direction) : PanEvent :=
  {| isFirst := first; isFinal := final;
     distance := {| Distance.x := Js.ofZ d; Distance.y := Js.ofZ d |};
     direction := towards |}.

(** An instance with one axis set to the given container extent, content
    extent and position, everything else as at construction. *)
Definition geometry (axis : Axis) (containerExtent contentExtent pos : Js.num) : State :=
  with_position (set axis pos (position initial))
    (with_size (set axis contentExtent (size initial))
       (with_container (set axis containerExtent (container initial)) initial)).

(** The spec's words for the geometry, on rationals: the clamp of a value
    to a range, the rounding to four decimal places and to an integer, and
    the two derived quantities. *)
Definition clamp (v lo hi : Q) : Q := Qmax lo (Qmin hi v).

Definition roundToInteger (v : Q) : Z := Qfloor (v + (1 # 2)).

Definition roundTo4 (v : Q) : Q := inject_Z (roundToInteger (v * 10000)) / 10000.

Definition specPercentage (pos contentExtent containerExtent : Q) : Q :=
  roundTo4 (clamp (pos / (contentExtent - containerExtent)) 0 1).

Definition specThumbSize (containerExtent contentExtent : Q) : Z :=
  roundToInteger (clamp (containerExtent * containerExtent / contentExtent) 50 containerExtent).

(** What may happen between two pan events of a drag on [axis] without
    ending the drag or changing the geometry: a pan event on the axis that
    is neither first nor final, the scroll target echoing its offset, time
    passing, and the pointer entering or leaving. *)
Definition duringDrag (axis : Axis) (ev : Event) : Prop :=
  match ev with
  | EvPan e a => a = axis /\ isFirst e = false /\ isFinal e = false
  | EvNativeScroll _ _ | EvTime _ | EvMouseenter | EvMouseleave => True
  | _ => False
  end.

(** The part of the state a running drag depends on. *)
Definition sameDrag (s s' : State) : Prop :=
  panning s' = panning s
  /\ panRefPos s' = panRefPos s
  /\ container s' = container s
  /\ size s' = size s.

(** The visibility window is open until [due]: [tempShowing] is true and
    the one pending timeout is the one held by [timer], due at [due]. *)
Definition windowOpenUntil (due : nat) (st : State) : Prop :=
  tempShowing st = true
  /\ (now (timeouts st) <= due)%nat
  /\ exists h : nat, timer st = Some h /\ pending (timeouts st) = [(h, due)].

Definition windowClosed (st : State) : Prop :=
  tempShowing st = false /\ pending (timeouts st) = [].

(** The invariant of the visibility timer. *)
Definition timerInv (st : State) : Prop :=
  windowClosed st \/ exists due : nat, windowOpenUntil due st.

(** Calls of [startTimer], the first at once and each further one after
    the given gap in milliseconds. *)
Definition notifyRun (props : Props) (gaps : list nat) (st : State) : State :=
  fold_left (fun s gap => startTimer props (advance gap s)) gaps
    (startTimer props st).

(** [mainStyle]: the style of the content, [props.contentStyle] as soon as
    one of the two thumbs is hidden and [props.contentActiveStyle]
    otherwise.  The two style props are opaque to the engine and are taken
    as arguments. *)
Definition mainStyle {A : Type}
  (props : Props) (contentStyle contentActiveStyle : A) (st : State) : A :=
  if thumbHidden props vertical st || thumbHidden props horizontal st
  then contentStyle
  else contentActiveStyle.

(** Two numbers that [!==] does not tell apart, or the very same number. *)
Definition agree (a b : Js.num) : Prop := a = b \/ Js.eqb a b = true.

(** The calls of the position setter in a list of events: the number of
    those with a wrong axis, and the calls the others make on the target. *)
Fixpoint wrongAxisCalls (evs : list Event) : nat :=
  match evs with
  | [] => 0
  | EvSetScrollPosition axis _ _ :: evs' =>
      if includes axisList axis
      then wrongAxisCalls evs'
      else S (wrongAxisCalls evs')
  | _ :: evs' => wrongAxisCalls evs'
  end.

(** The calls one event makes on the target through the setters of
    [utils/scroll.js], in the state the event finds: the position setter
    passes its offset on, the percentage setter the offset
    percentage * (contentExtent - containerExtent). *)
Definition callsOf (ev : Event) (st : State) : list ScrollCall :=
  match ev with
  | EvSetScrollPosition axis off duration =>
      match axisOfString axis with
      | Some a =>
          [{| callAxis := a; callOffset := off; callDuration := duration |}]
      | None => []
      end
  | EvSetScrollPercentage axis percent duration =>
      match axisOfString axis with
      | Some a =>
          [{| callAxis := a;
              callOffset :=
                Js.mul percent (Js.sub (get a (size st)) (get a (container st)));
              callDuration := duration |}]
      | None => []
      end
  | _ => []
  end.

Fixpoint forwardedCalls (props : Props) (evs : list Event) (st : State)
  : list ScrollCall :=
  match evs with
  | [] => []
  | ev :: evs' => callsOf ev st ++ forwardedCalls props evs' (handle props ev st)
  end.

(** The other axis. *)
Definition otherAxis (axis : Axis) : Axis :=
  match axis with
  | vertical => horizontal
  | horizontal => vertical
  end.

(** The key of an axis in [scroll] and [container]. *)
Definition axisName (axis : Axis) : string :=
  match axis with
  | vertical => "vertical"
  | horizontal => "horizontal"
  end.

(** What only the drag handler and the position setter write: the drag
    flag and its reference, the console and the calls on the target. *)
Definition sessionView (s : State)
  : bool * option Js.num * list string * list ScrollCall :=
  (panning s, panRefPos s, console s, scrollCalls (target s)).

(** ** Facts about the numbers *)

Module JsFacts.

Lemma value_Fin (q : Q) : Js.value (Js.Fin q) q.
Proof. simpl. reflexivity. Qed.

Lemma value_fin (p q : Q) : p == q -> Js.value (Js.fin p) q.
Proof. intros H. simpl. rewrite Qred_correct. exact H. Qed.

Lemma value_ofZ (z : Z) : Js.value (Js.ofZ z) (inject_Z z).
Proof. simpl. reflexivity. Qed.

Lemma value_ext (a : Js.num) (p q : Q) : Js.value a p -> p == q -> Js.value a q.
Proof. destruct a; simpl; try tauto. intros H1 H2. rewrite H1. exact H2. Qed.

Lemma value_inv (a : Js.num) (q : Q) :
  Js.value a q -> exists q', a = Js.Fin q' /\ q' == q.
Proof. destruct a as [| s | q']; simpl; try tauto. intros H. now exists q'. Qed.

Lemma value_isFinite (a : Js.num) (q : Q) : Js.value a q -> Js.isFinite a = true.
Proof. destruct a; simpl; tauto. Qed.

Lemma Qis_zero_true (q : Q) : Js.Qis_zero q = true <-> q == 0.
Proof.
  unfold Js.Qis_zero, Qeq. simpl. rewrite Z.eqb_eq. lia.
Qed.

Lemma Qis_zero_false (q : Q) : Js.Qis_zero q = false <-> ~ q == 0.
Proof.
  rewrite <- Qis_zero_true. destruct (Js.Qis_zero q); split; congruence.
Qed.

Lemma Qsign_neg_true (q : Q) : Js.Qsign_neg q = true <-> q < 0.
Proof.
  unfold Js.Qsign_neg, Qlt. simpl. rewrite Z.ltb_lt. lia.
Qed.

Ltac num_cases :=
  cbn [Js.value Js.neg Js.add Js.mul Js.div Js.round Js.fin Js.ofZ] in *;
  try tauto.

Lemma value_neg (a : Js.num) (p : Q) : Js.value a p -> Js.value (Js.neg a) (- p).
Proof.
  destruct a; num_cases. intros H. rewrite Qred_correct, H. reflexivity.
Qed.

Lemma value_add (a b : Js.num) (p q : Q) :
  Js.value a p -> Js.value b q -> Js.value (Js.add a b) (p + q).
Proof.
  destruct a, b; num_cases. intros H1 H2.
  rewrite Qred_correct, H1, H2. reflexivity.
Qed.

Lemma value_sub (a b : Js.num) (p q : Q) :
  Js.value a p -> Js.value b q -> Js.value (Js.sub a b) (p - q).
Proof.
  intros H1 H2. unfold Js.sub, Qminus.
  apply value_add; [exact H1 | now apply value_neg].
Qed.

Lemma value_mul (a b : Js.num) (p q : Q) :
  Js.value a p -> Js.value b q -> Js.value (Js.mul a b) (p * q).
Proof.
  destruct a, b; num_cases. intros H1 H2.
  rewrite Qred_correct, H1, H2. reflexivity.
Qed.

Lemma value_div (a b : Js.num) (p q : Q) :
  Js.value a p -> Js.value b q -> ~ q == 0 -> Js.value (Js.div a b) (p / q).
Proof.
  destruct a as [| | p'], b as [| | q']; num_cases. intros H1 H2 Hq.
  assert (Hz : Js.Qis_zero q' = false).
  { apply Qis_zero_false. rewrite H2. exact Hq. }
  rewrite Hz. cbn [Js.value Js.fin]. rewrite Qred_correct, H1, H2. reflexivity.
Qed.

Lemma value_round (a : Js.num) (p : Q) :
  Js.value a p -> Js.value (Js.round a) (inject_Z (Qfloor (p + (1 # 2)))).
Proof.
  destruct a; num_cases. intros H. rewrite H. reflexivity.
Qed.

Lemma leb_value (a b : Js.num) (p q : Q) :
  Js.value a p -> Js.value b q -> Js.leb a b = Qle_bool p q.
Proof.
  destruct a as [| | p'], b as [| | q']; cbn [Js.value Js.leb]; try tauto.
  intros H1 H2.
  destruct (Qle_bool p' q') eqn:E1, (Qle_bool p q) eqn:E2; try reflexivity.
  - apply Qle_bool_iff in E1. rewrite H1, H2 in E1.
    apply Qle_bool_iff in E1. congruence.
  - apply Qle_bool_iff in E2. rewrite <- H1, <- H2 in E2.
    apply Qle_bool_iff in E2. congruence.
Qed.

Lemma leb_true (a b : Js.num) (p q : Q) :
  Js.value a p -> Js.value b q -> p <= q -> Js.leb a b = true.
Proof.
  intros H1 H2 H. rewrite (leb_value a b p q H1 H2). now apply Qle_bool_iff.
Qed.

Lemma leb_false (a b : Js.num) (p q : Q) :
  Js.value a p -> Js.value b q -> q < p -> Js.leb a b = false.
Proof.
  intros H1 H2 H. rewrite (leb_value a b p q H1 H2).
  destruct (Qle_bool p q) eqn:E; [| reflexivity].
  apply Qle_bool_iff in E. lra.
Qed.

Lemma value_max (a b : Js.num) (p q : Q) :
  Js.value a p -> Js.value b q -> Js.value (Js.max a b) (Qmax p q).
Proof.
  intros H1 H2. destruct (Qlt_le_dec q p) as [Hlt | Hle].
  - assert (E : Js.leb a b = false) by (eapply leb_false; eauto).
    destruct a, b; cbn [Js.value Js.max] in *; try tauto. rewrite E.
    cbn [Js.value]. rewrite H1. symmetry. apply Q.max_l. lra.
  - assert (E : Js.leb a b = true) by (eapply leb_true; eauto).
    destruct a, b; cbn [Js.value Js.max] in *; try tauto. rewrite E.
    cbn [Js.value]. rewrite H2. symmetry. apply Q.max_r. exact Hle.
Qed.

Lemma value_min (a b : Js.num) (p q : Q) :
  Js.value a p -> Js.value b q -> Js.value (Js.min a b) (Qmin p q).
Proof.
  intros H1 H2. destruct (Qlt_le_dec q p) as [Hlt | Hle].
  - assert (E : Js.leb a b = false) by (eapply leb_false; eauto).
    destruct a, b; cbn [Js.value Js.min] in *; try tauto. rewrite E.
    cbn [Js.value]. rewrite H2. symmetry. apply Q.min_r. lra.
  - assert (E : Js.leb a b = true) by (eapply leb_true; eauto).
    destruct a, b; cbn [Js.value Js.min] in *; try tauto. rewrite E.
    cbn [Js.value]. rewrite H1. symmetry. apply Q.min_l. exact Hle.
Qed.

Lemma Qclamp_cases (x l h : Q) :
  (h <= l /\ Qmax l (Qmin h x) == l)
  \/ (l < h /\ x <= l /\ Qmax l (Qmin h x) == l)
  \/ (l < h /\ h <= x /\ Qmax l (Qmin h x) == h)
  \/ (l < h /\ l <= x <= h /\ Qmax l (Qmin h x) == x).
Proof.
  destruct (Q.min_spec h x) as [[H2 E2] | [H2 E2]];
  destruct (Q.max_spec l (Qmin h x)) as [[H4 E4] | [H4 E4]];
  rewrite E2 in H4; rewrite E4; try rewrite E2;
  destruct (Qlt_le_dec l h); destruct (Qlt_le_dec x l);
  try (left; split; [lra | try reflexivity; lra]);
  try (right; left; repeat split; try reflexivity; lra);
  try (right; right; left; repeat split; try reflexivity; lra);
  try (right; right; right; repeat split; try reflexivity; lra).
Qed.

(** The clamp on finite numbers: the lower bound wins when the bounds
    cross. *)
Lemma value_between (v lo hi : Js.num) (x l h : Q) :
  Js.value v x -> Js.value lo l -> Js.value hi h ->
  Js.value (between v lo hi) (Qmax l (Qmin h x)).
Proof.
  intros Hv Hlo Hhi. unfold between.
  destruct (Qlt_le_dec l h) as [Hlt | Hle].
  - rewrite (leb_false hi lo h l Hhi Hlo Hlt).
    eapply value_ext.
    + apply value_min; [exact Hhi |]. apply value_max; [exact Hlo | exact Hv].
    + destruct (Q.max_spec l x) as [[H1 E1] | [H1 E1]];
      destruct (Q.min_spec h (Qmax l x)) as [[H3 E3] | [H3 E3]];
      rewrite E1 in H3; rewrite E3; try rewrite E1;
      destruct (Qclamp_cases x l h) as [[? E] | [[? [? E]] | [[? [? E]] | [? [? E]]]]];
      rewrite E; lra.
  - rewrite (leb_true hi lo h l Hhi Hlo Hle).
    eapply value_ext; [exact Hlo |].
    destruct (Qclamp_cases x l h) as [[? E] | [[? [? E]] | [[? [? E]] | [? [? E]]]]];
    rewrite E; lra.
Qed.

(** With crossing bounds the clamp is its lower bound, whatever the Js.value. *)
Lemma between_crossed (v lo hi : Js.num) :
  Js.leb hi lo = true -> between v lo hi = lo.
Proof. intros H. unfold between. now rewrite H. Qed.

Lemma Qfloor_half_bounds (x : Q) (a b : Z) :
  inject_Z a <= x -> x <= inject_Z b ->
  (a <= Qfloor (x + (1 # 2)) <= b)%Z.
Proof.
  intros Ha Hb.
  pose proof (Qfloor_le (x + (1 # 2))) as H1.
  pose proof (Qlt_floor (x + (1 # 2))) as H2.
  rewrite inject_Z_plus in H2.
  split.
  - assert (H : inject_Z a < inject_Z (Qfloor (x + (1 # 2)) + 1)).
    { rewrite inject_Z_plus. lra. }
    rewrite <- Zlt_Qlt in H. lia.
  - assert (H : inject_Z (Qfloor (x + (1 # 2))) < inject_Z (b + 1)).
    { rewrite inject_Z_plus. change (inject_Z 1) with 1. lra. }
    rewrite <- Zlt_Qlt in H. lia.
Qed.

End JsFacts.

(** ** Geometry *)

Section Geometry.

Import JsFacts.

Variable axis : Axis.
Variable st : State.
Variables pos contentExtent containerExtent : Q.

Hypothesis Hpos : Js.value (get axis (position st)) pos.
Hypothesis Hsize : Js.value (get axis (size st)) contentExtent.
Hypothesis Hcontainer : Js.value (get axis (container st)) containerExtent.

(** The quotient of the percentage is finite as soon as the two extents
    differ. *)
Lemma percentage_value :
  ~ contentExtent == containerExtent ->
  Js.value (percentage axis st) (specPercentage pos contentExtent containerExtent).
Proof.
  intros Hne. unfold percentage, specPercentage, roundTo4, roundToInteger, clamp.
  apply value_div; [| apply value_ofZ | discriminate].
  apply (value_round _ (_ * inject_Z 10000)).
  apply value_mul; [| apply value_ofZ].
  apply (value_between _ _ _ _ (inject_Z 0) (inject_Z 1));
    [| apply value_ofZ | apply value_ofZ].
  apply value_div; [exact Hpos | | lra].
  apply value_sub; [exact Hsize | exact Hcontainer].
Qed.

Lemma thumbSize_value :
  ~ contentExtent == 0 ->
  Js.value (thumbSize axis st)
           (inject_Z (specThumbSize containerExtent contentExtent)).
Proof.
  intros Hne. unfold thumbSize, specThumbSize, roundToInteger, clamp.
  apply value_round.
  apply (value_between _ _ _ _ (inject_Z 50) _);
    [| apply value_ofZ | exact Hcontainer].
  apply value_div; [| exact Hsize | exact Hne].
  apply value_mul; exact Hcontainer.
Qed.

End Geometry.

Lemma clamp_range (v lo hi : Q) : lo <= hi -> lo <= clamp v lo hi <= hi.
Proof.
  intros H. unfold clamp.
  destruct (JsFacts.Qclamp_cases v lo hi)
    as [[? E] | [[? [? E]] | [[? [? E]] | [? [? E]]]]]; rewrite E; lra.
Qed.

Lemma roundToInteger_nearest (v : Q) :
  v - (1 # 2) < inject_Z (roundToInteger v) <= v + (1 # 2).
Proof.
  unfold roundToInteger.
  pose proof (Qfloor_le (v + (1 # 2))) as H1.
  pose proof (Qlt_floor (v + (1 # 2))) as H2.
  rewrite inject_Z_plus in H2. change (inject_Z 1) with 1 in H2. lra.
Qed.

Lemma roundTo4_nearest (v : Q) : Qabs (roundTo4 v - v) <= 1 # 20000.
Proof.
  unfold roundTo4. pose proof (roundToInteger_nearest (v * 10000)) as H.
  apply Qabs_Qle_condition. set (k := inject_Z (roundToInteger (v * 10000))) in *.
  assert (E : k / 10000 == k * (1 # 10000)) by (unfold Qdiv; reflexivity).
  rewrite E. lra.
Qed.

Lemma roundTo4_range (v : Q) : 0 <= v <= 1 -> 0 <= roundTo4 v <= 1.
Proof.
  intros H. unfold roundTo4, roundToInteger.
  assert (B : (0 <= Qfloor (v * 10000 + (1 # 2)) <= 10000)%Z).
  { apply JsFacts.Qfloor_half_bounds;
      [change (inject_Z 0) with 0 | change (inject_Z 10000) with 10000]; lra. }
  set (k := Qfloor (v * 10000 + (1 # 2))) in *.
  assert (E : inject_Z k / 10000 == inject_Z k * (1 # 10000))
    by (unfold Qdiv; reflexivity).
  rewrite E.
  assert (H0 : inject_Z 0 <= inject_Z k) by (rewrite <- Zle_Qle; lia).
  assert (H1 : inject_Z k <= inject_Z 10000) by (rewrite <- Zle_Qle; lia).
  change (inject_Z 0) with 0 in H0. change (inject_Z 10000) with 10000 in H1.
  lra.
Qed.

(** C1: for every axis state whose content extent exceeds the container
    extent, the percentage is the quotient position / (contentExtent -
    containerExtent) clamped to [0, 1] and rounded to four decimal places:
    it is k / 10000 for an integer k between 0 and 10000 and at most 1/20000
    away from the clamped quotient, so it lies between 0 and 1; with
    container 200, content 1000 and position 400 it is 0.5.  Which of the
    two neighbours a quotient on a tie is rounded to is left open. *)
Theorem percentage_clamped_and_rounded
  (axis : Axis) (st : State) (pos contentExtent containerExtent : Q) :
  Js.value (get axis (position st)) pos ->
  Js.value (get axis (size st)) contentExtent ->
  Js.value (get axis (container st)) containerExtent ->
  containerExtent < contentExtent ->
  exists (q : Q) (k : Z),
    percentage axis st = Js.Fin q
    /\ q == inject_Z k / 10000
    /\ (0 <= k <= 10000)%Z
    /\ Qabs (q - clamp (pos / (contentExtent - containerExtent)) 0 1) <= 1 # 20000
    /\ 0 <= q <= 1
    /\ (pos == 400 -> contentExtent == 1000 -> containerExtent == 200 ->
        q == 1 # 2).
Proof.
  intros Hpos Hsize Hcontainer Hlt.
  assert (Hne : ~ contentExtent == containerExtent) by lra.
  destruct (JsFacts.value_inv _ _
              (percentage_value axis st pos contentExtent containerExtent
                 Hpos Hsize Hcontainer Hne)) as [q [Eq Hq]].
  unfold specPercentage in Hq.
  set (x := clamp (pos / (contentExtent - containerExtent)) 0 1) in *.
  assert (Hx : 0 <= x <= 1) by (apply clamp_range; lra).
  exists q, (roundToInteger (x * 10000)).
  split; [exact Eq |]. split; [exact Hq |].
  split; [| split; [| split]].
  - unfold roundToInteger. apply JsFacts.Qfloor_half_bounds;
      [change (inject_Z 0) with 0 | change (inject_Z 10000) with 10000]; lra.
  - rewrite Hq. apply roundTo4_nearest.
  - rewrite Hq. now apply roundTo4_range.
  - intros E1 E2 E3. rewrite Hq. unfold x.
    unfold roundTo4, roundToInteger, clamp. rewrite E1, E2, E3.
    vm_compute. reflexivity.
Qed.

Lemma percentage_clamped_and_rounded_witness :
  exists (q : Q) (k : Z),
    percentage vertical
      (geometry vertical (Js.ofZ 200) (Js.ofZ 1000) (Js.ofZ 400)) = Js.Fin q
    /\ q == inject_Z k / 10000
    /\ (0 <= k <= 10000)%Z
    /\ Qabs (q - clamp (400 / (1000 - 200)) 0 1) <= 1 # 20000
    /\ 0 <= q <= 1
    /\ (400 == 400 -> 1000 == 1000 -> 200 == 200 -> q == 1 # 2).
Proof.
  apply (percentage_clamped_and_rounded vertical
           (geometry vertical (Js.ofZ 200) (Js.ofZ 1000) (Js.ofZ 400))
           400 1000 200); reflexivity.
Defined.

(** In binary64 the percentage of the example is the double 0.5, that is
    2^52 * 2^-53. *)
Remark percentage_binary64_example :
  B64.percentage (B64.ofZ 400) (B64.ofZ 1000) (B64.ofZ 200)
  = SpecFloat.S754_finite false 4503599627370496 (-53).
Proof. vm_compute. reflexivity. Qed.

(** A tie: at position 57 the exact product 0.07125 * 10000 is 712.5 and
    rounds to 713, the double product is 712.4999999999999 and rounds to
    712.  Both 0.0712 and 0.0713 are 1/20000 away from the quotient. *)
Remark percentage_binary64_tie :
  percentage vertical (geometry vertical (Js.ofZ 200) (Js.ofZ 1000) (Js.ofZ 57))
  = Js.Fin (713 # 10000)
  /\ B64.mul (B64.div (B64.ofZ 57) (B64.ofZ 800)) (B64.ofZ 10000)
     = SpecFloat.S754_finite false 6267216278323199 (-43)
  /\ B64.percentage (B64.ofZ 57) (B64.ofZ 1000) (B64.ofZ 200)
     = B64.div (B64.ofZ 712) (B64.ofZ 10000)
  /\ Qabs ((712 # 10000) - 57 / 800) == 1 # 20000
  /\ Qabs ((713 # 10000) - 57 / 800) == 1 # 20000.
Proof. vm_compute. repeat split. Qed.

(** At each of the 801 integer positions of a container of 200 on content
    of 1000 the double is the one of the exact computation, or its lower
    neighbour on a tie. *)
Remark percentage_binary64_agrees_off_ties :
  forallb agreesWithBinary64 (seq 0 801) = true.
Proof. vm_compute. reflexivity. Qed.

Lemma round_ofZ (a : Js.num) (p : Q) :
  Js.value a p -> Js.round a = Js.ofZ (roundToInteger p).
Proof.
  destruct a as [| | q]; cbn [Js.value Js.round]; try tauto.
  intros H. unfold roundToInteger. now rewrite H.
Qed.

Lemma thumbSize_ofZ (axis : Axis) (st : State) (containerExtent contentExtent : Q) :
  Js.value (get axis (container st)) containerExtent ->
  Js.value (get axis (size st)) contentExtent ->
  ~ contentExtent == 0 ->
  thumbSize axis st = Js.ofZ (specThumbSize containerExtent contentExtent).
Proof.
  intros Hc Hs Hne. unfold thumbSize, specThumbSize.
  apply round_ofZ.
  apply (JsFacts.value_between _ _ _ _ (inject_Z 50) _);
    [| apply JsFacts.value_ofZ | exact Hc].
  apply JsFacts.value_div; [| exact Hs | exact Hne].
  apply JsFacts.value_mul; exact Hc.
Qed.

Lemma thumbSize_small_container (axis : Axis) (st : State) (containerExtent : Q) :
  Js.value (get axis (container st)) containerExtent ->
  containerExtent <= 50 ->
  thumbSize axis st = Js.ofZ 50.
Proof.
  intros Hc Hle. unfold thumbSize.
  rewrite JsFacts.between_crossed; [reflexivity |].
  apply (JsFacts.leb_true _ _ containerExtent (inject_Z 50));
    [exact Hc | apply JsFacts.value_ofZ | exact Hle].
Qed.

(** C2, as the code has it: with container extent 200 and content extent
    1000 the thumb size, the clamp of 200 * 200 / 1000 = 40 to [50, 200]
    rounded to the nearest integer, is 50. *)
Theorem thumbSize_200_1000_is_50 (axis : Axis) (st : State) :
  Js.value (get axis (container st)) 200 ->
  Js.value (get axis (size st)) 1000 ->
  thumbSize axis st = Js.ofZ (roundToInteger (clamp (200 * 200 / 1000) 50 200))
  /\ thumbSize axis st = Js.ofZ 50.
Proof.
  intros Hc Hs.
  rewrite (thumbSize_ofZ axis st 200 1000 Hc Hs) by discriminate.
  split; reflexivity.
Qed.

Lemma thumbSize_200_1000_is_50_witness :
  thumbSize vertical (geometry vertical (Js.ofZ 200) (Js.ofZ 1000) (Js.ofZ 400))
  = Js.ofZ (roundToInteger (clamp (200 * 200 / 1000) 50 200))
  /\ thumbSize vertical (geometry vertical (Js.ofZ 200) (Js.ofZ 1000) (Js.ofZ 400))
     = Js.ofZ 50.
Proof.
  apply (thumbSize_200_1000_is_50 vertical
           (geometry vertical (Js.ofZ 200) (Js.ofZ 1000) (Js.ofZ 400)));
    reflexivity.
Defined.

(** C2 as stated fails: with container extent 200 and content extent 1000
    the thumb size is not 40. *)
Lemma thumbSize_200_1000_is_not_40 :
  ~ Js.value
      (thumbSize vertical
         (geometry vertical (Js.ofZ 200) (Js.ofZ 1000) (Js.ofZ 400)))
      40.
Proof. vm_compute. discriminate. Qed.

(** C5, as the code has it: when the content extent exceeds the container
    extent and the container extent is at least 50, the thumb size is an
    integer between 50 and the container extent rounded to the nearest
    integer, hence at most the container extent when that is an integer;
    when the container extent is below 50 the thumb size is 50, above the
    container extent. *)
Theorem thumbSize_bounds
  (axis : Axis) (st : State) (containerExtent contentExtent : Q) :
  Js.value (get axis (container st)) containerExtent ->
  Js.value (get axis (size st)) contentExtent ->
  containerExtent < contentExtent ->
  (50 <= containerExtent ->
   exists t : Z,
     thumbSize axis st = Js.ofZ t
     /\ (50 <= t <= roundToInteger containerExtent)%Z
     /\ (forall z : Z, containerExtent == inject_Z z -> (t <= z)%Z))
  /\ (containerExtent < 50 ->
      thumbSize axis st = Js.ofZ 50 /\ containerExtent < inject_Z 50).
Proof.
  intros Hc Hs Hlt. split.
  - intros H50. exists (specThumbSize containerExtent contentExtent).
    split; [apply thumbSize_ofZ; [exact Hc | exact Hs | lra] |].
    unfold specThumbSize.
    pose proof (clamp_range (containerExtent * containerExtent / contentExtent)
                  50 containerExtent H50) as [Hlo Hhi].
    set (v := clamp _ _ _) in *.
    split; [split |].
    + unfold roundToInteger.
      apply (JsFacts.Qfloor_half_bounds v 50 (Qceiling v));
        [exact Hlo | apply Qle_ceiling].
    + unfold roundToInteger. apply Qfloor_resp_le. lra.
    + intros z Hz. unfold roundToInteger.
      apply (JsFacts.Qfloor_half_bounds v 50 z); [exact Hlo | lra].
  - intros H50. split; [| exact H50].
    apply (thumbSize_small_container axis st containerExtent Hc). lra.
Qed.

Lemma thumbSize_bounds_witness :
  (50 <= 200 ->
   exists t : Z,
     thumbSize horizontal
       (geometry horizontal (Js.ofZ 200) (Js.ofZ 1000) (Js.ofZ 0)) = Js.ofZ t
     /\ (50 <= t <= roundToInteger 200)%Z
     /\ (forall z : Z, 200 == inject_Z z -> (t <= z)%Z))
  /\ (200 < 50 ->
      thumbSize horizontal
        (geometry horizontal (Js.ofZ 200) (Js.ofZ 1000) (Js.ofZ 0)) = Js.ofZ 50
      /\ 200 < inject_Z 50).
Proof.
  apply (thumbSize_bounds horizontal
           (geometry horizontal (Js.ofZ 200) (Js.ofZ 1000) (Js.ofZ 0))
           200 1000); reflexivity.
Defined.

(** C5 as stated fails: with container extent 30 and content extent 100
    the thumb size is 50, which is not at most the container extent. *)
Lemma thumbSize_exceeds_small_container :
  30 < 100
  /\ thumbSize vertical (geometry vertical (Js.ofZ 30) (Js.ofZ 100) (Js.ofZ 0))
     = Js.ofZ 50
  /\ ~ (exists t : Q,
          Js.value
            (thumbSize vertical
               (geometry vertical (Js.ofZ 30) (Js.ofZ 100) (Js.ofZ 0))) t
          /\ 50 <= t <= 30).
Proof.
  split; [reflexivity |]. split; [reflexivity |].
  intros [t [Hv [H1 H2]]]. vm_compute in Hv. lra.
Qed.

(** A container extent that is not an integer: the thumb size, an integer,
    can pass it although it is above 50. *)
Remark thumbSize_fractional_container :
  thumbSize vertical
    (geometry vertical (Js.Fin (253 # 5)) (Js.Fin (507 # 10)) (Js.ofZ 0))
  = Js.ofZ 51.
Proof. reflexivity. Qed.

(** ** The drag handler *)

Lemma thumbSize_with_panning (b : bool) (axis : Axis) (st : State) :
  thumbSize axis (with_panning b st) = thumbSize axis st.
Proof. reflexivity. Qed.

Lemma panPosition_with_panning (b : bool) (e : PanEvent) (axis : Axis) (st : State) :
  panPosition e axis (with_panning b st) = panPosition e axis st.
Proof. reflexivity. Qed.

Lemma readScroll_setScroll (off : Js.num) (axis : Axis) (st : State) :
  readScroll (scroll (dirProps axis)) (target (setScroll off axis st)) = off.
Proof. destruct axis; reflexivity. Qed.

(** A pan event that passes the first conditional writes [panPosition]. *)
Lemma onPanThumb_active (props : Props) (e : PanEvent) (axis : Axis) (st : State) :
  isFirst e = false -> panning st = true ->
  onPanThumb props e axis st
  = setScroll (panPosition e axis st) axis
      (if isFinal e then with_panning false st else st).
Proof.
  intros Hf Hp. unfold onPanThumb, panGate. rewrite Hf, Hp. cbn [negb].
  destruct (isFinal e); reflexivity.
Qed.

(** C3, as the code has it: the multiplier is the plain quotient
    (contentExtent - containerExtent) / (containerExtent - thumbSize), with
    no guard on the denominator.  During an active drag with a denominator
    that is negative the multiplier is that finite quotient, with a
    denominator that is zero it is not finite, and in both cases the pan
    event writes dragReferencePosition + signedDistance * multiplier to the
    scroll target. *)
Theorem multiplier_is_unguarded_quotient
  (props : Props) (e : PanEvent) (axis : Axis) (st : State)
  (containerExtent contentExtent thumb : Q) :
  Js.value (get axis (container st)) containerExtent ->
  Js.value (get axis (size st)) contentExtent ->
  Js.value (thumbSize axis st) thumb ->
  panning st = true ->
  isFirst e = false ->
  containerExtent - thumb <= 0 ->
  (containerExtent - thumb < 0 ->
   Js.value (multiplier axis st)
     ((contentExtent - containerExtent) / (containerExtent - thumb)))
  /\ (containerExtent - thumb == 0 -> Js.isFinite (multiplier axis st) = false)
  /\ readScroll (scroll (dirProps axis)) (target (onPanThumb props e axis st))
     = Js.add (Js.toNumber (panRefPos st))
         (Js.mul (signedDistance e axis) (multiplier axis st)).
Proof.
  intros Hc Hs Ht Hp Hf Hden.
  assert (Hnum : Js.value (Js.sub (get axis (size st)) (get axis (container st)))
                   (contentExtent - containerExtent))
    by (apply JsFacts.value_sub; assumption).
  assert (Hd : Js.value (Js.sub (get axis (container st)) (thumbSize axis st))
                 (containerExtent - thumb))
    by (apply JsFacts.value_sub; assumption).
  split; [| split].
  - intros Hneg. unfold multiplier. apply JsFacts.value_div; [assumption .. | lra].
  - intros Hz. unfold multiplier.
    destruct (JsFacts.value_inv _ _ Hnum) as [n [En _]].
    destruct (JsFacts.value_inv _ _ Hd) as [d [Ed Hd']].
    rewrite En, Ed. cbn [Js.div].
    assert (Z0 : Js.Qis_zero d = true) by (apply JsFacts.Qis_zero_true; lra).
    rewrite Z0. destruct (Js.Qis_zero n); reflexivity.
  - rewrite (onPanThumb_active props e axis st Hf Hp).
    rewrite readScroll_setScroll. reflexivity.
Qed.

Lemma multiplier_is_unguarded_quotient_witness :
  let st := with_panRefPos (Some (Js.ofZ 10))
              (with_panning true
                 (geometry vertical (Js.ofZ 30) (Js.ofZ 100) (Js.ofZ 10))) in
  let e := panEvent false false 4 down in
  (30 - 50 < 0 -> Js.value (multiplier vertical st) ((100 - 30) / (30 - 50)))
  /\ (30 - 50 == 0 -> Js.isFinite (multiplier vertical st) = false)
  /\ readScroll (scroll (dirProps vertical))
       (target (onPanThumb defaultProps e vertical st))
     = Js.add (Js.toNumber (panRefPos st))
         (Js.mul (signedDistance e vertical) (multiplier vertical st)).
Proof.
  intros st e.
  apply (multiplier_is_unguarded_quotient defaultProps e vertical st 30 100 50);
    try reflexivity.
  unfold Qle. simpl. lia.
Defined.

(** C3 as stated fails: a drag on a container of extent 30 with content of
    extent 100, started at position 10.  The denominator is 30 - 50 = -20,
    the multiplier is -7/2 and not 0, and a pan event of distance 4 moves
    the scroll target from 10 to -4. *)
Lemma multiplier_negative_denominator :
  let st :=
    run defaultProps
      [EvContainerResize (Js.ofZ 30) (Js.ofZ 30);
       EvContentResize (Js.ofZ 100) (Js.ofZ 100);
       EvNativeScroll (Js.ofZ 10) (Js.ofZ 0);
       EvPan (panEvent true false 0 down) vertical]
      initial in
  let st' := onPanThumb defaultProps (panEvent false false 4 down) vertical st in
  panning st = true
  /\ panRefPos st = Some (Js.ofZ 10)
  /\ targetScrollTop (target st) = Js.ofZ 10
  /\ Js.sub (get vertical (container st)) (thumbSize vertical st) = Js.ofZ (-20)
  /\ multiplier vertical st = Js.Fin (-7 # 2)
  /\ targetScrollTop (target st') = Js.ofZ (-4)
  /\ targetScrollTop (target st') <> targetScrollTop (target st).
Proof.
  vm_compute. repeat split; discriminate.
Qed.

(** The same with a container of extent 50: the denominator is 0, the
    division is carried out and the position written is infinite. *)
Remark multiplier_zero_denominator :
  let st :=
    run defaultProps
      [EvContainerResize (Js.ofZ 50) (Js.ofZ 50);
       EvContentResize (Js.ofZ 100) (Js.ofZ 100);
       EvNativeScroll (Js.ofZ 10) (Js.ofZ 0);
       EvPan (panEvent true false 0 down) vertical]
      initial in
  let st' := onPanThumb defaultProps (panEvent false false 4 down) vertical st in
  panning st = true
  /\ multiplier vertical st = Js.Inf false
  /\ targetScrollTop (target st) = Js.NaN
  /\ targetScrollTop (target st') = Js.Inf false.
Proof.
  vm_compute. repeat split.
Qed.

(** ** Degenerate geometry *)

Section Degenerate.

Import JsFacts.

Variable props : Props.
Variable axis : Axis.
Variable st : State.
Variables pos contentExtent containerExtent : Q.

Hypothesis Hpos : Js.value (get axis (position st)) pos.
Hypothesis Hsize : Js.value (get axis (size st)) contentExtent.
Hypothesis Hcontainer : Js.value (get axis (container st)) containerExtent.

(** Nothing to scroll: the thumb is hidden, whatever the interaction
    state. *)
Lemma thumbHidden_nothing_to_scroll :
  contentExtent <= containerExtent + 1 -> thumbHidden props axis st = true.
Proof.
  intros H. unfold thumbHidden.
  rewrite (leb_true _ _ contentExtent (containerExtent + inject_Z 1));
    [apply orb_true_r | exact Hsize | | exact H].
  apply value_add; [exact Hcontainer | apply value_ofZ].
Qed.

(** The thumb size is finite for finite extents, a zero content extent
    included. *)
Lemma thumbSize_finite : exists t : Q, Js.value (thumbSize axis st) t.
Proof.
  destruct (Qlt_le_dec 50 containerExtent) as [Hbig | Hsmall].
  - destruct (Qeq_dec contentExtent 0) as [Hz | Hnz].
    + destruct (value_inv _ _ Hsize) as [s' [Es Hs']].
      destruct (value_inv _ _ Hcontainer) as [c' [Ec Hc']].
      unfold thumbSize, between. rewrite Es, Ec.
      rewrite (leb_false (Js.Fin c') (Js.ofZ 50) c' (inject_Z 50));
        [| apply value_Fin | apply value_ofZ | change (inject_Z 50) with 50; lra].
      cbn [Js.mul Js.div Js.fin].
      assert (Z0 : Js.Qis_zero s' = true) by (apply Qis_zero_true; lra).
      assert (Z1 : Js.Qis_zero (Qred (c' * c')) = false).
      { apply Qis_zero_false. rewrite Qred_correct. nra. }
      assert (Z2 : Js.Qsign_neg (Qred (c' * c')) = false).
      { destruct (Js.Qsign_neg (Qred (c' * c'))) eqn:E; [| reflexivity].
        apply Qsign_neg_true in E. rewrite Qred_correct in E. nra. }
      rewrite Z0, Z1, Z2. cbn.
      eexists. reflexivity.
    + eexists. apply (thumbSize_value axis st contentExtent containerExtent);
        assumption.
  - exists (inject_Z 50).
    rewrite (thumbSize_small_container axis st containerExtent Hcontainer Hsmall).
    apply value_ofZ.
Qed.

(** Equal extents and a position that is not zero: the quotient is an
    infinity, which the clamp brings back to 0 or 1. *)
Lemma percentage_equal_extents_nonzero :
  contentExtent == containerExtent -> ~ pos == 0 ->
  percentage axis st = Js.Fin 0 \/ percentage axis st = Js.Fin 1.
Proof.
  intros He Hp.
  assert (Hd : Js.value (Js.sub (get axis (size st)) (get axis (container st)))
                 (contentExtent - containerExtent))
    by (apply value_sub; assumption).
  destruct (value_inv _ _ Hd) as [d [Ed Hd']].
  destruct (value_inv _ _ Hpos) as [p' [Ep Hp']].
  unfold percentage. rewrite Ed, Ep. cbn [Js.div].
  assert (Z0 : Js.Qis_zero d = true) by (apply Qis_zero_true; lra).
  assert (Z1 : Js.Qis_zero p' = false) by (apply Qis_zero_false; lra).
  rewrite Z0, Z1. destruct (Js.Qsign_neg p'); [left | right]; reflexivity.
Qed.

(** Equal extents and position zero: the quotient 0/0 is NaN and stays
    NaN through the clamp, the rounding and the pixel offset. *)
Lemma percentage_equal_extents_zero :
  contentExtent == containerExtent -> pos == 0 ->
  percentage axis st = Js.NaN /\ stylePos (style axis st) = Js.NaN.
Proof.
  intros He Hp.
  assert (Hd : Js.value (Js.sub (get axis (size st)) (get axis (container st)))
                 (contentExtent - containerExtent))
    by (apply value_sub; assumption).
  destruct (value_inv _ _ Hd) as [d [Ed Hd']].
  destruct (value_inv _ _ Hpos) as [p' [Ep Hp']].
  assert (E : percentage axis st = Js.NaN).
  { unfold percentage. rewrite Ed, Ep. cbn [Js.div].
    assert (Z0 : Js.Qis_zero d = true) by (apply Qis_zero_true; lra).
    assert (Z1 : Js.Qis_zero p' = true) by (apply Qis_zero_true; lra).
    rewrite Z0, Z1. reflexivity. }
  split; [exact E |].
  unfold style. cbn [stylePos]. rewrite E. reflexivity.
Qed.

End Degenerate.

(** C4, as the code has it: when the content extent is at most the
    container extent the thumb is hidden, first pan events and clicks on the
    bar change nothing, and the percentage (between 0 and 1) and the pixel
    offset are finite, except for equal extents at position 0: there the
    quotient 0/0 is NaN, nothing clamps it, and the percentage and the pixel
    offset are NaN. *)
Theorem degenerate_geometry
  (props : Props) (axis : Axis) (st : State) (pos contentExtent containerExtent : Q) :
  Js.value (get axis (position st)) pos ->
  Js.value (get axis (size st)) contentExtent ->
  Js.value (get axis (container st)) containerExtent ->
  contentExtent <= containerExtent ->
  thumbHidden props axis st = true
  /\ (forall e : PanEvent, isFirst e = true -> onPanThumb props e axis st = st)
  /\ (forall evt : MouseEvt, onMousedown props evt axis st = st)
  /\ (~ (contentExtent == containerExtent /\ pos == 0) ->
      exists q o : Q,
        Js.value (percentage axis st) q /\ 0 <= q <= 1
        /\ Js.value (stylePos (style axis st)) o)
  /\ (contentExtent == containerExtent -> pos == 0 ->
      percentage axis st = Js.NaN /\ stylePos (style axis st) = Js.NaN).
Proof.
  intros Hpos Hsize Hcontainer Hle.
  assert (Hh : thumbHidden props axis st = true).
  { apply (thumbHidden_nothing_to_scroll props axis st contentExtent containerExtent);
      [assumption .. | lra]. }
  split; [exact Hh |]. split; [| split; [| split]].
  - intros e He. unfold onPanThumb, panGate. now rewrite He, Hh.
  - intros evt. unfold onMousedown. now rewrite Hh.
  - intros Hnot.
    assert (Hq : exists q, Js.value (percentage axis st) q /\ 0 <= q <= 1).
    { destruct (Qeq_dec contentExtent containerExtent) as [He | Hne].
      - assert (Hp : ~ pos == 0) by tauto.
        destruct (percentage_equal_extents_nonzero axis st pos contentExtent
                    containerExtent Hpos Hsize Hcontainer He Hp) as [E | E];
          rewrite E; [exists 0 | exists 1]; (split; [reflexivity | lra]).
      - exists (specPercentage pos contentExtent containerExtent). split.
        + apply percentage_value; assumption.
        + apply roundTo4_range. apply clamp_range. lra. }
    destruct Hq as [q [Hq Hr]].
    destruct (thumbSize_finite axis st contentExtent containerExtent
                Hsize Hcontainer) as [t Ht].
    exists q, (q * (containerExtent - t)). split; [exact Hq |]. split; [exact Hr |].
    unfold style. cbn [stylePos].
    apply JsFacts.value_mul; [exact Hq |].
    apply JsFacts.value_sub; assumption.
  - apply percentage_equal_extents_zero; assumption.
Qed.

Lemma degenerate_geometry_witness :
  let st := with_hover true
              (geometry vertical (Js.ofZ 200) (Js.ofZ 200) (Js.ofZ 0)) in
  thumbHidden defaultProps vertical st = true
  /\ (forall e : PanEvent,
        isFirst e = true -> onPanThumb defaultProps e vertical st = st)
  /\ (forall evt : MouseEvt, onMousedown defaultProps evt vertical st = st)
  /\ (~ (200 == 200 /\ 0 == 0) ->
      exists q o : Q,
        Js.value (percentage vertical st) q /\ 0 <= q <= 1
        /\ Js.value (stylePos (style vertical st)) o)
  /\ (200 == 200 -> 0 == 0 ->
      percentage vertical st = Js.NaN /\ stylePos (style vertical st) = Js.NaN).
Proof.
  intros st.
  apply (degenerate_geometry defaultProps vertical st 0 200 200);
    try reflexivity.
  unfold Qle. simpl. lia.
Defined.

(** C4 as stated fails: at construction (all extents and positions 0), and
    with equal extents of 200 at position 0, the percentage and the pixel
    offset of the thumb are NaN. *)
Lemma percentage_is_NaN_on_equal_extents :
  percentage vertical initial = Js.NaN
  /\ stylePos (style vertical initial) = Js.NaN
  /\ percentage vertical
       (geometry vertical (Js.ofZ 200) (Js.ofZ 200) (Js.ofZ 0)) = Js.NaN
  /\ stylePos
       (style vertical
          (geometry vertical (Js.ofZ 200) (Js.ofZ 200) (Js.ofZ 0))) = Js.NaN.
Proof. repeat split. Qed.

(** ** Drag sessions *)

(** C6: on an idle engine, a pan event with [isFirst = true] starts a drag
    session (the reference position becomes the current position and
    [panning] becomes true) if and only if the thumb of the axis is not
    hidden; with a hidden thumb the event changes nothing, and so does any
    pan event that is not a first one. *)
Theorem drag_starts_iff_thumb_visible
  (props : Props) (e : PanEvent) (axis : Axis) (st : State) :
  panning st = false ->
  (isFirst e = true ->
   (thumbHidden props axis st = false <->
    panGate props e axis st
    = Some (with_panning true
              (with_panRefPos (Some (get axis (position st))) st)))
   /\ (isFinal e = false ->
       (thumbHidden props axis st = false <->
        panning (onPanThumb props e axis st) = true
        /\ panRefPos (onPanThumb props e axis st)
           = Some (get axis (position st))))
   /\ (thumbHidden props axis st = true -> onPanThumb props e axis st = st))
  /\ (isFirst e = false -> onPanThumb props e axis st = st).
Proof.
  intros Hidle. split.
  - intros Hf. unfold onPanThumb, panGate. rewrite Hf.
    destruct (thumbHidden props axis st) eqn:Hh.
    + split; [split; discriminate |]. split; [| reflexivity].
      intros _. split; [discriminate |]. intros [Hp _]. congruence.
    + split; [split; reflexivity |]. split; [| discriminate].
      intros Hfin. rewrite Hfin. split; [| reflexivity].
      intros _. destruct axis; split; reflexivity.
  - intros Hf. unfold onPanThumb, panGate. rewrite Hf, Hidle. reflexivity.
Qed.

Lemma drag_starts_iff_thumb_visible_witness :
  let st := with_hover true
              (geometry vertical (Js.ofZ 100) (Js.ofZ 400) (Js.ofZ 120)) in
  let e := panEvent true false 0 down in
  (isFirst e = true ->
   (thumbHidden defaultProps vertical st = false <->
    panGate defaultProps e vertical st
    = Some (with_panning true
              (with_panRefPos (Some (get vertical (position st))) st)))
   /\ (isFinal e = false ->
       (thumbHidden defaultProps vertical st = false <->
        panning (onPanThumb defaultProps e vertical st) = true
        /\ panRefPos (onPanThumb defaultProps e vertical st)
           = Some (get vertical (position st))))
   /\ (thumbHidden defaultProps vertical st = true ->
       onPanThumb defaultProps e vertical st = st))
  /\ (isFirst e = false -> onPanThumb defaultProps e vertical st = st).
Proof.
  intros st e.
  apply (drag_starts_iff_thumb_visible defaultProps e vertical st).
  reflexivity.
Defined.



(** A first event that is also final, on a visible thumb and while
    [panning] is still set with a stale reference of 50: the reference is
    taken anew from the position 120, [panning] is cleared and
    120 + 10 * 6 is written. *)
Example first_and_final_pan_event_writes_180 :
  let st := with_hover true
              (with_panRefPos (Some (Js.ofZ 50))
                 (with_panning true
                    (geometry vertical (Js.ofZ 100) (Js.ofZ 400) (Js.ofZ 120)))) in
  let st' := onPanThumb defaultProps (panEvent true true 10 down) vertical st in
  panning st' = false
  /\ panRefPos st' = Some (Js.ofZ 120)
  /\ targetScrollTop (target st') = Js.ofZ 180.
Proof. repeat split. Qed.

(** The final event of the drag of the witness writes 120 + 10 * 6. *)
Example final_pan_event_writes_180 :
  targetScrollTop
    (target
       (onPanThumb defaultProps (panEvent false true 10 down) vertical
          (with_panRefPos (Some (Js.ofZ 120))
             (with_panning true
                (geometry vertical (Js.ofZ 100) (Js.ofZ 400) (Js.ofZ 120))))))
  = Js.ofZ 180.
Proof. reflexivity. Qed.

(** ** The position setter *)

(** C8: the position setter called with an axis that is neither "vertical"
    nor "horizontal" appends one diagnostic to the console, records no call
    on the scroll target and leaves every other part of the state as it was;
    "diagonal" is such an axis. *)
Theorem invalid_axis_is_reported_once
  (axis : string) (off : Js.num) (duration : option Js.num) (st : State) :
  axis <> "vertical"%string ->
  axis <> "horizontal"%string ->
  localSetScrollPosition axis off duration st
  = with_console (console st ++ [wrongAxisMessage]) st
  /\ console (localSetScrollPosition axis off duration st)
     = console st ++ [wrongAxisMessage]
  /\ target (localSetScrollPosition axis off duration st) = target st
  /\ with_console (console st) (localSetScrollPosition axis off duration st) = st
  /\ includes axisList "diagonal" = false.
Proof.
  intros Hv Hh.
  assert (E : includes axisList axis = false).
  { unfold includes, axisList. cbn [existsb].
    apply String.eqb_neq in Hv. apply String.eqb_neq in Hh.
    now rewrite Hv, Hh. }
  unfold localSetScrollPosition. rewrite E. cbn [negb].
  repeat split. destruct st; reflexivity.
Qed.

Lemma invalid_axis_is_reported_once_witness :
  let st := geometry vertical (Js.ofZ 100) (Js.ofZ 400) (Js.ofZ 120) in
  localSetScrollPosition "diagonal" (Js.ofZ 50) None st
  = with_console (console st ++ [wrongAxisMessage]) st
  /\ console (localSetScrollPosition "diagonal" (Js.ofZ 50) None st)
     = console st ++ [wrongAxisMessage]
  /\ target (localSetScrollPosition "diagonal" (Js.ofZ 50) None st) = target st
  /\ with_console (console st)
       (localSetScrollPosition "diagonal" (Js.ofZ 50) None st) = st
  /\ includes axisList "diagonal" = false.
Proof.
  intros st.
  apply (invalid_axis_is_reported_once "diagonal" (Js.ofZ 50) None st);
    discriminate.
Defined.

(** A valid axis reports nothing and records one call on the target. *)
Example valid_axis_is_forwarded :
  let st := localSetScrollPosition "horizontal" (Js.ofZ 50) None initial in
  console st = []
  /\ scrollCalls (target st)
     = [{| callAxis := horizontal; callOffset := Js.ofZ 50; callDuration := None |}].
Proof. split; reflexivity. Qed.

(** ** The drag round trip *)

Lemma sameDrag_refl (s : State) : sameDrag s s.
Proof. repeat split. Qed.

Lemma sameDrag_trans (s1 s2 s3 : State) :
  sameDrag s1 s2 -> sameDrag s2 s3 -> sameDrag s1 s3.
Proof.
  unfold sameDrag. intros [A1 [A2 [A3 A4]]] [B1 [B2 [B3 B4]]].
  repeat split; congruence.
Qed.

Lemma startTimer_sameDrag (props : Props) (s : State) :
  sameDrag s (startTimer props s).
Proof.
  unfold startTimer.
  destruct (tempShowing s), (onScroll props); repeat split.
Qed.

Lemma advance_sameDrag (ms : nat) (s : State) : sameDrag s (advance ms s).
Proof.
  unfold advance.
  destruct (existsb _ _); repeat split.
Qed.

Lemma updateScroll_sameDrag (props : Props) (t l : Js.num) (s : State) :
  sameDrag s (updateScroll props t l s).
Proof.
  unfold updateScroll.
  destruct (negb (Js.eqb (get vertical (position s)) t)); cbn iota beta;
    match goal with
    | |- context [negb (Js.eqb ?a ?b)] => destruct (negb (Js.eqb a b))
    end;
    try (eapply sameDrag_trans; [| apply startTimer_sameDrag]);
    repeat split.
Qed.

Lemma multiplier_sameDrag (axis : Axis) (s s' : State) :
  sameDrag s s' -> multiplier axis s' = multiplier axis s.
Proof.
  intros [_ [_ [Hc Hs]]]. unfold multiplier, thumbSize. now rewrite Hc, Hs.
Qed.

Lemma onPanThumb_sameDrag (props : Props) (e : PanEvent) (axis : Axis) (s : State) :
  isFirst e = false -> isFinal e = false ->
  sameDrag s (onPanThumb props e axis s).
Proof.
  intros Hf Hfin. unfold onPanThumb, panGate. rewrite Hf, Hfin.
  destruct (panning s); cbn [negb]; destruct axis; repeat split.
Qed.

Lemma handle_sameDrag (props : Props) (axis : Axis) (ev : Event) (s : State) :
  duringDrag axis ev -> sameDrag s (handle props ev s).
Proof.
  destruct ev; cbn [duringDrag handle]; try tauto; intros H.
  - apply updateScroll_sameDrag.
  - destruct H as [_ [Hf Hfin]]. now apply onPanThumb_sameDrag.
  - repeat split.
  - repeat split.
  - apply advance_sameDrag.
Qed.

Lemma run_sameDrag (props : Props) (axis : Axis) (evs : list Event) (s : State) :
  Forall (duringDrag axis) evs -> sameDrag s (run props evs s).
Proof.
  intros H. revert s. induction H as [| ev evs Hev _ IH]; intros s.
  - apply sameDrag_refl.
  - cbn [run fold_left]. eapply sameDrag_trans.
    + apply (handle_sameDrag props axis ev s Hev).
    + apply IH.
Qed.

(** The first event of a drag on a visible thumb. *)
Lemma onPanThumb_first (props : Props) (e : PanEvent) (axis : Axis) (st : State) :
  thumbHidden props axis st = false -> isFirst e = true -> isFinal e = false ->
  let st1 := onPanThumb props e axis st in
  panning st1 = true
  /\ panRefPos st1 = Some (get axis (position st))
  /\ container st1 = container st
  /\ size st1 = size st
  /\ readScroll (scroll (dirProps axis)) (target st1)
     = Js.add (get axis (position st))
         (Js.mul (signedDistance e axis) (multiplier axis st)).
Proof.
  intros Hh Hf Hfin. unfold onPanThumb, panGate. rewrite Hf, Hh, Hfin.
  cbn zeta. repeat split. apply readScroll_setScroll.
Qed.

(** C9, as the code has it: in a drag started at position P, every pan
    event writes P + signedDistance * multiplier to the scroll target, from
    the reference captured at the start and its own signed distance only,
    whatever the events before it were; so the drag leaves the target at P
    when the signed distance of the last pan event is zero and the
    multiplier is finite. *)
Theorem drag_position_is_absolute
  (props : Props) (axis : Axis) (st : State)
  (first : PanEvent) (between_events : list Event) (last : PanEvent) :
  thumbHidden props axis st = false ->
  isFirst first = true ->
  isFinal first = false ->
  Forall (duringDrag axis) between_events ->
  isFirst last = false ->
  let st' :=
    onPanThumb props last axis
      (run props between_events (onPanThumb props first axis st)) in
  readScroll (scroll (dirProps axis)) (target st')
  = Js.add (get axis (position st))
      (Js.mul (signedDistance last axis) (multiplier axis st))
  /\ (forall P m : Q,
        Js.value (get axis (position st)) P ->
        Js.value (multiplier axis st) m ->
        Js.value (signedDistance last axis) 0 ->
        Js.value (readScroll (scroll (dirProps axis)) (target st')) P).
Proof.
  intros Hh Hf Hfin Hevs Hl st'.
  destruct (onPanThumb_first props first axis st Hh Hf Hfin)
    as [Hp [Hr [Hc [Hs _]]]].
  set (st1 := onPanThumb props first axis st) in *.
  destruct (run_sameDrag props axis between_events st1 Hevs)
    as [Hp2 [Hr2 [Hc2 Hs2]]].
  set (st2 := run props between_events st1) in *.
  assert (Hm : multiplier axis st2 = multiplier axis st).
  { unfold multiplier, thumbSize. now rewrite Hc2, Hs2, Hc, Hs. }
  assert (Hw : readScroll (scroll (dirProps axis)) (target st')
               = Js.add (get axis (position st))
                   (Js.mul (signedDistance last axis) (multiplier axis st))).
  { unfold st'. rewrite (onPanThumb_active props last axis st2 Hl);
      [| congruence].
    rewrite readScroll_setScroll. unfold panPosition.
    replace (multiplier axis (if isFinal last then with_panning false st2 else st2))
      with (multiplier axis st2) by (destruct (isFinal last); reflexivity).
    replace (panRefPos (if isFinal last then with_panning false st2 else st2))
      with (panRefPos st2) by (destruct (isFinal last); reflexivity).
    rewrite Hm, Hr2, Hr. reflexivity. }
  split; [exact Hw |].
  intros P m HP Hmv Hd. rewrite Hw.
  apply (JsFacts.value_ext _ (P + 0 * m)); [| lra].
  apply JsFacts.value_add; [exact HP |].
  apply JsFacts.value_mul; assumption.
Qed.

Lemma drag_position_is_absolute_witness :
  let st := with_hover true
              (geometry vertical (Js.ofZ 100) (Js.ofZ 400) (Js.ofZ 120)) in
  let evs :=
    [EvNativeScroll (Js.ofZ 180) (Js.ofZ 0);
     EvPan (panEvent false false 25 up) vertical;
     EvTime 40] in
  let st' :=
    onPanThumb defaultProps (panEvent false true 0 down) vertical
      (run defaultProps evs
         (onPanThumb defaultProps (panEvent true false 10 down) vertical st)) in
  readScroll (scroll (dirProps vertical)) (target st')
  = Js.add (get vertical (position st))
      (Js.mul (signedDistance (panEvent false true 0 down) vertical)
         (multiplier vertical st))
  /\ (forall P m : Q,
        Js.value (get vertical (position st)) P ->
        Js.value (multiplier vertical st) m ->
        Js.value (signedDistance (panEvent false true 0 down) vertical) 0 ->
        Js.value (readScroll (scroll (dirProps vertical)) (target st')) P).
Proof.
  intros st evs.
  apply (drag_position_is_absolute defaultProps vertical st
           (panEvent true false 10 down) evs (panEvent false true 0 down));
    try reflexivity.
  repeat constructor.
Defined.

(** C9 as stated fails.  A drag started at position 120 (container 100,
    content 400, multiplier 6) receives a pan event of distance 10 down and
    a final one of distance 10 up, the scroll target echoing each write: the
    signed distances 10 and -10 add up to zero, and the drag ends at
    position 60.  And a drag started at position 10 on a container of
    extent 50 (content 100, infinite multiplier) whose only event has
    distance zero writes NaN. *)
Lemma drag_round_trip_fails :
  let st :=
    run defaultProps
      [EvContainerResize (Js.ofZ 100) (Js.ofZ 100);
       EvContentResize (Js.ofZ 400) (Js.ofZ 400);
       EvNativeScroll (Js.ofZ 120) (Js.ofZ 0)]
      initial in
  let e1 := panEvent true false 10 down in
  let e2 := panEvent false true 10 up in
  let st' :=
    run defaultProps
      [EvPan e1 vertical; EvNativeScroll (Js.ofZ 180) (Js.ofZ 0);
       EvPan e2 vertical; EvNativeScroll (Js.ofZ 60) (Js.ofZ 0)]
      st in
  let narrow :=
    run defaultProps
      [EvContainerResize (Js.ofZ 50) (Js.ofZ 50);
       EvContentResize (Js.ofZ 100) (Js.ofZ 100);
       EvNativeScroll (Js.ofZ 10) (Js.ofZ 0)]
      initial in
  (get vertical (position st) = Js.ofZ 120
   /\ thumbHidden defaultProps vertical st = false
   /\ Js.add (signedDistance e1 vertical) (signedDistance e2 vertical) = Js.ofZ 0
   /\ targetScrollTop (target (run defaultProps [EvPan e1 vertical] st)) = Js.ofZ 180
   /\ targetScrollTop (target st') = Js.ofZ 60
   /\ get vertical (position st') = Js.ofZ 60
   /\ get vertical (position st') <> get vertical (position st))
  /\ (get vertical (position narrow) = Js.ofZ 10
      /\ thumbHidden defaultProps vertical narrow = false
      /\ signedDistance (panEvent true true 0 down) vertical = Js.ofZ 0
      /\ targetScrollTop
           (target (onPanThumb defaultProps (panEvent true true 0 down) vertical narrow))
         = Js.NaN).
Proof.
  vm_compute. repeat split. discriminate.
Qed.

(** ** The visibility timer *)

Section VisibilityTimer.

Variable props : Props.

Lemma timerInv_ext (s s' : State) :
  tempShowing s' = tempShowing s ->
  timer s' = timer s ->
  timeouts s' = timeouts s ->
  timerInv s -> timerInv s'.
Proof.
  unfold timerInv, windowClosed, windowOpenUntil. intros E1 E2 E3.
  rewrite E1, E2, E3. tauto.
Qed.

Lemma timerInv_initial : timerInv initial.
Proof. left. split; reflexivity. Qed.

(** [startTimer] leaves exactly one pending timeout, due [delay] from now. *)
Lemma startTimer_opens (s : State) :
  timerInv s ->
  tempShowing (startTimer props s) = true
  /\ timer (startTimer props s) = Some (nextHandle (timeouts s))
  /\ pending (timeouts (startTimer props s))
     = [(nextHandle (timeouts s), (now (timeouts s) + delay props)%nat)]
  /\ now (timeouts (startTimer props s)) = now (timeouts s).
Proof.
  intros [[Ht Hp] | [due [Ht [_ [h [Hh Hp]]]]]]; unfold startTimer; rewrite Ht.
  - cbn. rewrite Hp. destruct (onScroll props); repeat split.
  - rewrite Hh. cbn. rewrite Hp. cbn. rewrite Nat.eqb_refl. cbn.
    destruct (onScroll props); repeat split; exact Ht.
Qed.

Lemma startTimer_window (s : State) :
  timerInv s ->
  windowOpenUntil (now (timeouts s) + delay props) (startTimer props s).
Proof.
  intros H. destruct (startTimer_opens s H) as [H1 [H2 [H3 H4]]].
  split; [exact H1 |]. split; [rewrite H4; lia |].
  exists (nextHandle (timeouts s)). now split.
Qed.

Lemma advance_closed (ms : nat) (s : State) :
  windowClosed s -> windowClosed (advance ms s).
Proof.
  intros [Ht Hp]. unfold advance. rewrite Hp. cbn. now split.
Qed.

Lemma advance_before (ms due : nat) (s : State) :
  windowOpenUntil due s -> (now (timeouts s) + ms < due)%nat ->
  windowOpenUntil due (advance ms s)
  /\ now (timeouts (advance ms s)) = (now (timeouts s) + ms)%nat.
Proof.
  intros [Ht [Hn [h [Hh Hp]]]] Hlt. unfold advance, isDue. rewrite Hp. cbn.
  replace (due <=? now (timeouts s) + ms)%nat with false
    by (symmetry; apply Nat.leb_gt; lia).
  cbn. split; [| reflexivity].
  split; [exact Ht |]. split; [cbn; lia |].
  exists h. now split.
Qed.

Lemma advance_after (ms due : nat) (s : State) :
  windowOpenUntil due s -> (due <= now (timeouts s) + ms)%nat ->
  windowClosed (advance ms s).
Proof.
  intros [Ht [Hn [h [Hh Hp]]]] Hle. unfold advance, isDue. rewrite Hp. cbn.
  replace (due <=? now (timeouts s) + ms)%nat with true
    by (symmetry; apply Nat.leb_le; lia).
  cbn. now split.
Qed.

Lemma advance_timerInv (ms : nat) (s : State) :
  timerInv s -> timerInv (advance ms s).
Proof.
  intros [Hc | [due Ho]].
  - left. now apply advance_closed.
  - destruct (Nat.lt_ge_cases (now (timeouts s) + ms) due) as [Hlt | Hge].
    + right. exists due. now apply advance_before.
    + left. now apply (advance_after ms due).
Qed.

Lemma startTimer_timerInv (s : State) : timerInv s -> timerInv (startTimer props s).
Proof.
  intros H. right. eexists. now apply startTimer_window.
Qed.

Lemma updateContainer_timerInv (h w : Js.num) (s : State) :
  timerInv s -> timerInv (updateContainer props h w s).
Proof.
  intros H. unfold updateContainer.
  destruct (negb (Js.eqb (get vertical (container s)) h)); cbn iota beta;
    match goal with
    | |- context [negb (Js.eqb ?a ?b)] => destruct (negb (Js.eqb a b))
    end;
    try apply startTimer_timerInv; exact H.
Qed.

Lemma updateScroll_timerInv (t l : Js.num) (s : State) :
  timerInv s -> timerInv (updateScroll props t l s).
Proof.
  intros H. unfold updateScroll.
  destruct (negb (Js.eqb (get vertical (position s)) t)); cbn iota beta;
    match goal with
    | |- context [negb (Js.eqb ?a ?b)] => destruct (negb (Js.eqb a b))
    end;
    try apply startTimer_timerInv; exact H.
Qed.

Lemma updateScrollSize_timerInv (h w : Js.num) (s : State) :
  timerInv s -> timerInv (updateScrollSize props h w s).
Proof.
  intros H. unfold updateScrollSize.
  destruct (negb (Js.eqb (get horizontal (size s)) w)).
  - match goal with
    | |- context [negb (Js.eqb ?a ?b)] => destruct (negb (Js.eqb a b))
    end.
    + apply startTimer_timerInv.
      apply (timerInv_ext
               (startTimer props (with_size (set horizontal w (size s)) s)));
        [reflexivity .. |].
      apply startTimer_timerInv. exact H.
    + apply startTimer_timerInv. exact H.
  - match goal with
    | |- context [negb (Js.eqb ?a ?b)] => destruct (negb (Js.eqb a b))
    end.
    + apply startTimer_timerInv. exact H.
    + exact H.
Qed.

Lemma onPanThumb_timerInv (e : PanEvent) (axis : Axis) (s : State) :
  timerInv s -> timerInv (onPanThumb props e axis s).
Proof.
  intros H. unfold onPanThumb, panGate.
  destruct (isFirst e), (thumbHidden props axis s), (panning s), (isFinal e);
    cbn [negb]; exact H.
Qed.

Lemma onMousedown_timerInv (evt : MouseEvt) (axis : Axis) (s : State) :
  timerInv s -> timerInv (onMousedown props evt axis s).
Proof.
  intros H. unfold onMousedown.
  destruct (thumbHidden props axis s); cbn [negb]; [exact H |].
  match goal with
  | |- context [if ?b then _ else _] => destruct b
  end; exact H.
Qed.

Lemma localSetScrollPosition_timerInv
  (axis : string) (off : Js.num) (duration : option Js.num) (s : State) :
  timerInv s -> timerInv (localSetScrollPosition axis off duration s).
Proof.
  intros H. unfold localSetScrollPosition.
  destruct (negb (includes axisList axis)); exact H.
Qed.

Lemma handle_timerInv (ev : Event) (s : State) :
  timerInv s -> timerInv (handle props ev s).
Proof.
  intros H. destruct ev; cbn [handle].
  - now apply updateContainer_timerInv.
  - now apply updateScrollSize_timerInv.
  - now apply updateScroll_timerInv.
  - now apply onPanThumb_timerInv.
  - now apply onMousedown_timerInv.
  - exact H.
  - exact H.
  - now apply localSetScrollPosition_timerInv.
  - unfold setScrollPercentage. destruct (axisOfString axis); [| exact H].
    now apply localSetScrollPosition_timerInv.
  - exact H.
  - now apply advance_timerInv.
Qed.

Lemma run_timerInv (evs : list Event) (s : State) :
  timerInv s -> timerInv (run props evs s).
Proof.
  revert s. induction evs as [| ev evs IH]; intros s H; [exact H |].
  cbn [run fold_left]. apply IH. now apply handle_timerInv.
Qed.

Lemma timerInv_one_pending (s : State) :
  timerInv s -> (List.length (pending (timeouts s)) <= 1)%nat.
Proof.
  intros [[_ Hp] | [due [_ [_ [h [_ Hp]]]]]]; rewrite Hp; cbn; lia.
Qed.

(** Calls at gaps below [delay] keep the window open, until [delay] after
    the last one. *)
Lemma notifyRun_window (gaps : list nat) (s : State) :
  timerInv s ->
  Forall (fun gap => gap < delay props)%nat gaps ->
  windowOpenUntil (now (timeouts (notifyRun props gaps s)) + delay props)
    (notifyRun props gaps s).
Proof.
  intros Hinv Hgaps. unfold notifyRun.
  assert (H0 : timerInv (startTimer props s)) by now apply startTimer_timerInv.
  assert (W0 : windowOpenUntil
                 (now (timeouts (startTimer props s)) + delay props)
                 (startTimer props s)).
  { destruct (startTimer_opens s Hinv) as [_ [_ [_ E]]]. rewrite E.
    now apply startTimer_window. }
  revert W0. generalize (startTimer props s). clear H0 Hinv s.
  induction Hgaps as [| gap gaps Hgap _ IH]; intros s W; [exact W |].
  cbn [fold_left]. apply IH.
  destruct (advance_before gap _ s W) as [W1 E1]; [lia |].
  assert (I1 : timerInv (advance gap s)) by (right; eexists; exact W1).
  destruct (startTimer_opens _ I1) as [_ [_ [_ E]]]. rewrite E.
  now apply startTimer_window.
Qed.

End VisibilityTimer.

(** C7: the visibility timer keeps at most one timeout pending, whatever
    happens to the engine; a call of [startTimer] leaves the window open
    with one timeout due [delay] milliseconds later, the earlier one being
    cancelled; and when [startTimer] is called again and again at gaps below
    [delay], [tempShowing] is true at every moment less than [delay] after a
    call and false from [delay] after the last call on. *)
Theorem visibility_window_extends
  (props : Props) (st : State) (gaps : list nat) :
  timerInv st ->
  Forall (fun gap => gap < delay props)%nat gaps ->
  (forall evs : list Event,
     (List.length (pending (timeouts (run props evs st))) <= 1)%nat)
  /\ (tempShowing (startTimer props st) = true
      /\ pending (timeouts (startTimer props st))
         = [(nextHandle (timeouts st), (now (timeouts st) + delay props)%nat)])
  /\ (forall (k ms : nat),
        tempShowing (advance ms (notifyRun props (firstn k gaps) st))
        = (ms <? delay props)%nat).
Proof.
  intros Hinv Hgaps. split; [| split].
  - intros evs. apply timerInv_one_pending. now apply run_timerInv.
  - destruct (startTimer_opens props st Hinv) as [H1 [_ [H3 _]]]. now split.
  - intros k ms.
    assert (Hk : Forall (fun gap => gap < delay props)%nat (firstn k gaps)).
    { rewrite <- (firstn_skipn k gaps) in Hgaps.
      apply Forall_app in Hgaps. exact (proj1 Hgaps). }
    pose proof (notifyRun_window props (firstn k gaps) st Hinv Hk) as W.
    set (s := notifyRun props (firstn k gaps) st) in *.
    destruct (Nat.ltb_spec ms (delay props)) as [Hlt | Hge].
    + destruct (advance_before ms _ s W) as [[Ht _] _]; [lia | exact Ht].
    + destruct (advance_after ms _ s W) as [Ht _]; [lia | exact Ht].
Qed.

Lemma visibility_window_extends_witness :
  (forall evs : list Event,
     (List.length (pending (timeouts (run defaultProps evs initial))) <= 1)%nat)
  /\ (tempShowing (startTimer defaultProps initial) = true
      /\ pending (timeouts (startTimer defaultProps initial))
         = [(nextHandle (timeouts initial),
             (now (timeouts initial) + delay defaultProps)%nat)])
  /\ (forall (k ms : nat),
        tempShowing
          (advance ms (notifyRun defaultProps (firstn k [300; 999; 0]%nat) initial))
        = (ms <? delay defaultProps)%nat).
Proof.
  apply (visibility_window_extends defaultProps initial [300; 999; 0]%nat).
  - left. split; reflexivity.
  - repeat constructor; cbn; lia.
Defined.

(** Three calls at times 0, 300 and 1299 with the default delay of 1000:
    the window is still open at 2298 and closed at 2299, with the timeouts
    of the first two calls cancelled. *)
Example visibility_window_three_calls :
  let st := notifyRun defaultProps [300; 999]%nat initial in
  pending (timeouts st) = [(2, 2299)]%nat
  /\ tempShowing (advance 999 st) = true
  /\ tempShowing (advance 1000 st) = false
  /\ pending (timeouts (advance 1000 st)) = [].
Proof. repeat split. Qed.

(** ** Further properties of the geometry *)

Lemma roundTo4_comp (x y : Q) : x == y -> roundTo4 x == roundTo4 y.
Proof. intros H. unfold roundTo4, roundToInteger. now rewrite H. Qed.

Lemma roundTo4_monotone (x y : Q) : x <= y -> roundTo4 x <= roundTo4 y.
Proof.
  intros H. unfold roundTo4, roundToInteger.
  assert (Hz : (Qfloor (x * 10000 + (1 # 2)) <= Qfloor (y * 10000 + (1 # 2)))%Z)
    by (apply Qfloor_resp_le; lra).
  rewrite Zle_Qle in Hz.
  unfold Qdiv. apply Qmult_le_compat_r; [exact Hz | discriminate].
Qed.

Lemma clamp_monotone (x y lo hi : Q) : x <= y -> clamp x lo hi <= clamp y lo hi.
Proof.
  intros H. unfold clamp.
  destruct (JsFacts.Qclamp_cases x lo hi)
    as [[? E] | [[? [? E]] | [[? [? E]] | [? [? E]]]]];
  destruct (JsFacts.Qclamp_cases y lo hi)
    as [[? F] | [[? [? F]] | [[? [? F]] | [? [? F]]]]];
  rewrite E, F; lra.
Qed.

Lemma Qdiv_monotone (x y d : Q) : 0 < d -> x <= y -> x / d <= y / d.
Proof.
  intros Hd H. unfold Qdiv. apply Qmult_le_compat_r; [exact H |].
  apply Qinv_le_0_compat. lra.
Qed.

(** Scrolling further never lowers the percentage: for two states of an
    axis with the same extents, content above container, the percentage
    grows with the position. *)
Theorem percentage_monotone
  (axis : Axis) (st1 st2 : State) (pos1 pos2 contentExtent containerExtent : Q) :
  Js.value (get axis (position st1)) pos1 ->
  Js.value (get axis (position st2)) pos2 ->
  Js.value (get axis (size st1)) contentExtent ->
  Js.value (get axis (size st2)) contentExtent ->
  Js.value (get axis (container st1)) containerExtent ->
  Js.value (get axis (container st2)) containerExtent ->
  containerExtent < contentExtent ->
  pos1 <= pos2 ->
  exists q1 q2 : Q,
    Js.value (percentage axis st1) q1
    /\ Js.value (percentage axis st2) q2
    /\ q1 <= q2.
Proof.
  intros Hp1 Hp2 Hs1 Hs2 Hc1 Hc2 Hlt Hle.
  assert (Hne : ~ contentExtent == containerExtent) by lra.
  exists (specPercentage pos1 contentExtent containerExtent),
         (specPercentage pos2 contentExtent containerExtent).
  split; [apply percentage_value; assumption |].
  split; [apply percentage_value; assumption |].
  unfold specPercentage. apply roundTo4_monotone, clamp_monotone, Qdiv_monotone;
    [lra | exact Hle].
Qed.

Lemma percentage_monotone_witness :
  exists q1 q2 : Q,
    Js.value
      (percentage vertical
         (geometry vertical (Js.ofZ 200) (Js.ofZ 1000) (Js.ofZ 100))) q1
    /\ Js.value
         (percentage vertical
            (geometry vertical (Js.ofZ 200) (Js.ofZ 1000) (Js.ofZ 400))) q2
    /\ q1 <= q2.
Proof.
  apply (percentage_monotone vertical
           (geometry vertical (Js.ofZ 200) (Js.ofZ 1000) (Js.ofZ 100))
           (geometry vertical (Js.ofZ 200) (Js.ofZ 1000) (Js.ofZ 400))
           100 400 1000 200);
    try reflexivity.
  unfold Qle. simpl. lia.
Defined.

(** The percentage saturates: it is 0 at and below position 0, and 1 at and
    beyond the last position contentExtent - containerExtent. *)
Theorem percentage_saturates
  (axis : Axis) (st : State) (pos contentExtent containerExtent : Q) :
  Js.value (get axis (position st)) pos ->
  Js.value (get axis (size st)) contentExtent ->
  Js.value (get axis (container st)) containerExtent ->
  containerExtent < contentExtent ->
  (pos <= 0 -> Js.value (percentage axis st) 0)
  /\ (contentExtent - containerExtent <= pos -> Js.value (percentage axis st) 1).
Proof.
  intros Hp Hs Hc Hlt.
  assert (Hne : ~ contentExtent == containerExtent) by lra.
  pose proof (percentage_value axis st pos contentExtent containerExtent
                Hp Hs Hc Hne) as Hv.
  set (d := contentExtent - containerExtent) in *.
  assert (Hd : 0 < d) by (unfold d; lra).
  split; intros H; (eapply JsFacts.value_ext; [exact Hv |]);
    unfold specPercentage; fold d.
  - assert (Hq : pos / d <= 0).
    { setoid_replace 0 with (0 / d) by (unfold Qdiv; ring).
      now apply Qdiv_monotone. }
    assert (E : clamp (pos / d) 0 1 == 0).
    { unfold clamp.
      destruct (JsFacts.Qclamp_cases (pos / d) 0 1)
        as [[? E] | [[? [? E]] | [[? [? E]] | [? [? E]]]]]; rewrite E; lra. }
    rewrite (roundTo4_comp _ _ E). reflexivity.
  - assert (Hq : 1 <= pos / d).
    { setoid_replace 1 with (d / d) by (field; lra).
      now apply Qdiv_monotone. }
    assert (E : clamp (pos / d) 0 1 == 1).
    { unfold clamp.
      destruct (JsFacts.Qclamp_cases (pos / d) 0 1)
        as [[? E] | [[? [? E]] | [[? [? E]] | [? [? E]]]]]; rewrite E; lra. }
    rewrite (roundTo4_comp _ _ E). reflexivity.
Qed.

Lemma percentage_saturates_witness :
  (900 <= 0 ->
   Js.value
     (percentage horizontal
        (geometry horizontal (Js.ofZ 200) (Js.ofZ 1000) (Js.ofZ 900))) 0)
  /\ (1000 - 200 <= 900 ->
      Js.value
        (percentage horizontal
           (geometry horizontal (Js.ofZ 200) (Js.ofZ 1000) (Js.ofZ 900))) 1).
Proof.
  apply (percentage_saturates horizontal
           (geometry horizontal (Js.ofZ 200) (Js.ofZ 1000) (Js.ofZ 900))
           900 1000 200);
    reflexivity.
Defined.

Lemma clamp_comp (x y lo hi : Q) : x == y -> clamp x lo hi == clamp y lo hi.
Proof. intros H. unfold clamp. now rewrite H. Qed.

Lemma roundToInteger_comp (x y : Q) : x == y -> roundToInteger x = roundToInteger y.
Proof. intros H. unfold roundToInteger. now rewrite H. Qed.

Lemma Qdiv_bound_mult (x d b : Q) : 0 < d -> (x / d <= b <-> x <= b * d).
Proof.
  intros Hd. split; intros H.
  - setoid_replace x with (x / d * d) by (field; lra).
    apply Qmult_le_compat_r; lra.
  - setoid_replace b with (b * d / d) by (field; lra).
    apply Qdiv_monotone; assumption.
Qed.

Lemma Qdiv_bound_mult_ge (x d b : Q) : 0 < d -> (b <= x / d <-> b * d <= x).
Proof.
  intros Hd. split; intros H.
  - setoid_replace x with (x / d * d) by (field; lra).
    apply Qmult_le_compat_r; lra.
  - setoid_replace b with (b * d / d) by (field; lra).
    apply Qdiv_monotone; assumption.
Qed.

(** The thumb size by cases, for a container above 50 and content: it is
    the minimum 50 while container^2 / content is at most 50, the rounded
    quotient container^2 / content between that and content = container,
    and the whole container, rounded, once the content fits. *)
Theorem thumbSize_cases
  (axis : Axis) (st : State) (containerExtent contentExtent : Q) :
  Js.value (get axis (container st)) containerExtent ->
  Js.value (get axis (size st)) contentExtent ->
  50 < containerExtent ->
  0 < contentExtent ->
  (containerExtent * containerExtent <= 50 * contentExtent ->
   thumbSize axis st = Js.ofZ 50)
  /\ (50 * contentExtent <= containerExtent * containerExtent ->
      containerExtent <= contentExtent ->
      thumbSize axis st
      = Js.ofZ (roundToInteger (containerExtent * containerExtent / contentExtent)))
  /\ (contentExtent <= containerExtent ->
      thumbSize axis st = Js.ofZ (roundToInteger containerExtent)).
Proof.
  intros Hc Hs H50 Hpos.
  assert (E : thumbSize axis st
              = Js.ofZ (specThumbSize containerExtent contentExtent))
    by (apply thumbSize_ofZ; [assumption .. | lra]).
  rewrite E. unfold specThumbSize.
  set (x := containerExtent * containerExtent / contentExtent).
  assert (Hx1 : forall b, x <= b <-> containerExtent * containerExtent <= b * contentExtent)
    by (intros b; apply Qdiv_bound_mult; exact Hpos).
  assert (Hx2 : forall b, b <= x <-> b * contentExtent <= containerExtent * containerExtent)
    by (intros b; apply Qdiv_bound_mult_ge; exact Hpos).
  split; [| split].
  - intros H. apply (proj2 (Hx1 50)) in H.
    assert (F : clamp x 50 containerExtent == 50).
    { unfold clamp.
      destruct (JsFacts.Qclamp_cases x 50 containerExtent)
        as [[? F] | [[? [? F]] | [[? [? F]] | [? [? F]]]]]; rewrite F; lra. }
    rewrite (roundToInteger_comp _ _ F). reflexivity.
  - intros H1 H2. apply (proj2 (Hx2 50)) in H1.
    assert (H3 : x <= containerExtent) by (apply Hx1; nra).
    assert (F : clamp x 50 containerExtent == x).
    { unfold clamp.
      destruct (JsFacts.Qclamp_cases x 50 containerExtent)
        as [[? F] | [[? [? F]] | [[? [? F]] | [? [? F]]]]]; rewrite F; lra. }
    rewrite (roundToInteger_comp _ _ F). reflexivity.
  - intros H. assert (H3 : containerExtent <= x) by (apply Hx2; nra).
    assert (F : clamp x 50 containerExtent == containerExtent).
    { unfold clamp.
      destruct (JsFacts.Qclamp_cases x 50 containerExtent)
        as [[? F] | [[? [? F]] | [[? [? F]] | [? [? F]]]]]; rewrite F; lra. }
    rewrite (roundToInteger_comp _ _ F). reflexivity.
Qed.

Lemma thumbSize_cases_witness :
  let st := geometry vertical (Js.ofZ 300) (Js.ofZ 1000) (Js.ofZ 0) in
  (300 * 300 <= 50 * 1000 -> thumbSize vertical st = Js.ofZ 50)
  /\ (50 * 1000 <= 300 * 300 -> 300 <= 1000 ->
      thumbSize vertical st = Js.ofZ (roundToInteger (300 * 300 / 1000)))
  /\ (1000 <= 300 -> thumbSize vertical st = Js.ofZ (roundToInteger 300)).
Proof.
  intros st.
  apply (thumbSize_cases vertical st 300 1000); reflexivity.
Defined.

Lemma specThumbSize_integer_container (containerExtent contentExtent : Q) (z : Z) :
  50 <= containerExtent ->
  containerExtent == inject_Z z ->
  (50 <= specThumbSize containerExtent contentExtent <= z)%Z.
Proof.
  intros H50 Hz. unfold specThumbSize, roundToInteger.
  pose proof (clamp_range (containerExtent * containerExtent / contentExtent)
                50 containerExtent H50) as [Hlo Hhi].
  apply JsFacts.Qfloor_half_bounds; [exact Hlo | lra].
Qed.

(** The thumb stays inside its track: for content above a container of an
    integer extent of at least 50, the pixel offset of the thumb is at least
    0 and offset plus thumb size is at most the container extent. *)
Theorem thumb_stays_in_track
  (axis : Axis) (st : State) (pos contentExtent containerExtent : Q) (z : Z) :
  Js.value (get axis (position st)) pos ->
  Js.value (get axis (size st)) contentExtent ->
  Js.value (get axis (container st)) containerExtent ->
  containerExtent < contentExtent ->
  50 <= containerExtent ->
  containerExtent == inject_Z z ->
  exists o t : Q,
    Js.value (stylePos (style axis st)) o
    /\ Js.value (styleSize (style axis st)) t
    /\ 0 <= o
    /\ o + t <= containerExtent.
Proof.
  intros Hp Hs Hc Hlt H50 Hz.
  destruct (specThumbSize_integer_container containerExtent contentExtent z
              H50 Hz) as [Ht1 Ht2].
  assert (Et : thumbSize axis st
               = Js.ofZ (specThumbSize containerExtent contentExtent))
    by (apply thumbSize_ofZ; [assumption .. | lra]).
  set (t := specThumbSize containerExtent contentExtent) in *.
  assert (Hne : ~ contentExtent == containerExtent) by lra.
  pose proof (percentage_value axis st pos contentExtent containerExtent
                Hp Hs Hc Hne) as Hq.
  assert (Hr : 0 <= specPercentage pos contentExtent containerExtent <= 1).
  { apply roundTo4_range, clamp_range. lra. }
  set (q := specPercentage pos contentExtent containerExtent) in *.
  exists (q * (containerExtent - inject_Z t)), (inject_Z t).
  assert (Hle : inject_Z t <= containerExtent)
    by (rewrite Hz; rewrite <- Zle_Qle; exact Ht2).
  unfold style. cbn [stylePos styleSize]. rewrite Et.
  split; [| split; [apply JsFacts.value_ofZ | split; nra]].
  apply JsFacts.value_mul; [exact Hq |].
  apply JsFacts.value_sub; [exact Hc | apply JsFacts.value_ofZ].
Qed.

Lemma thumb_stays_in_track_witness :
  exists o t : Q,
    Js.value
      (stylePos
         (style vertical
            (geometry vertical (Js.ofZ 200) (Js.ofZ 1000) (Js.ofZ 400)))) o
    /\ Js.value
         (styleSize
            (style vertical
               (geometry vertical (Js.ofZ 200) (Js.ofZ 1000) (Js.ofZ 400)))) t
    /\ 0 <= o
    /\ o + t <= 200.
Proof.
  apply (thumb_stays_in_track vertical
           (geometry vertical (Js.ofZ 200) (Js.ofZ 1000) (Js.ofZ 400))
           400 1000 200 200);
    try reflexivity.
  unfold Qle. simpl. lia.
Defined.

(** ** Further properties of the drag *)

Lemma Direction_eqb_eq (a b : Direction) : Direction_eqb a b = true <-> a = b.
Proof. destruct a, b; cbn; split; congruence. Qed.

Lemma specThumbSize_below_container (containerExtent contentExtent : Q) :
  50 < containerExtent ->
  containerExtent + 1 < contentExtent ->
  inject_Z (specThumbSize containerExtent contentExtent) < containerExtent.
Proof.
  intros H50 Hlt. unfold specThumbSize.
  set (x := containerExtent * containerExtent / contentExtent).
  assert (Hxs : x * contentExtent == containerExtent * containerExtent)
    by (unfold x; field; lra).
  destruct (JsFacts.Qclamp_cases x 50 containerExtent)
    as [[H E] | [[_ [H E]] | [[_ [H E]] | [_ [H E]]]]]; fold (clamp x 50 containerExtent) in E.
  - lra.
  - rewrite (roundToInteger_comp _ _ E). exact H50.
  - nra.
  - rewrite (roundToInteger_comp _ _ E).
    pose proof (roundToInteger_nearest x) as [_ Hr].
    assert (x + (1 # 2) < containerExtent) by nra.
    lra.
Qed.

Lemma multiplier_value
  (axis : Axis) (st : State) (containerExtent contentExtent : Q) :
  Js.value (get axis (container st)) containerExtent ->
  Js.value (get axis (size st)) contentExtent ->
  50 < containerExtent ->
  containerExtent + 1 < contentExtent ->
  Js.value (multiplier axis st)
    ((contentExtent - containerExtent)
     / (containerExtent - inject_Z (specThumbSize containerExtent contentExtent))).
Proof.
  intros Hc Hs H50 Hlt.
  pose proof (specThumbSize_below_container _ _ H50 Hlt) as Ht.
  unfold multiplier.
  rewrite (thumbSize_ofZ axis st containerExtent contentExtent Hc Hs) by lra.
  apply JsFacts.value_div; [| | lra].
  - apply JsFacts.value_sub; assumption.
  - apply JsFacts.value_sub; [exact Hc | apply JsFacts.value_ofZ].
Qed.

(** Where the thumb can be dragged on a container above 50 (content more
    than one pixel above the container), the thumb is shorter than the
    track and the multiplier is finite and positive: the content follows the
    direction of the drag. *)
Theorem multiplier_positive
  (axis : Axis) (st : State) (containerExtent contentExtent : Q) :
  Js.value (get axis (container st)) containerExtent ->
  Js.value (get axis (size st)) contentExtent ->
  50 < containerExtent ->
  containerExtent + 1 < contentExtent ->
  exists (t : Z) (m : Q),
    thumbSize axis st = Js.ofZ t
    /\ inject_Z t < containerExtent
    /\ Js.value (multiplier axis st) m
    /\ m == (contentExtent - containerExtent) / (containerExtent - inject_Z t)
    /\ 0 < m.
Proof.
  intros Hc Hs H50 Hlt.
  pose proof (specThumbSize_below_container _ _ H50 Hlt) as Ht.
  exists (specThumbSize containerExtent contentExtent). eexists.
  split; [apply thumbSize_ofZ; [assumption .. | lra] |].
  split; [exact Ht |].
  split; [exact (multiplier_value axis st containerExtent contentExtent
                   Hc Hs H50 Hlt) |].
  split; [reflexivity |].
  apply Qlt_shift_div_l; lra.
Qed.

Lemma multiplier_positive_witness :
  exists (t : Z) (m : Q),
    thumbSize vertical (geometry vertical (Js.ofZ 100) (Js.ofZ 400) (Js.ofZ 0))
    = Js.ofZ t
    /\ inject_Z t < 100
    /\ Js.value
         (multiplier vertical
            (geometry vertical (Js.ofZ 100) (Js.ofZ 400) (Js.ofZ 0))) m
    /\ m == (400 - 100) / (100 - inject_Z t)
    /\ 0 < m.
Proof.
  apply (multiplier_positive vertical
           (geometry vertical (Js.ofZ 100) (Js.ofZ 400) (Js.ofZ 0)) 100 400);
    reflexivity.
Defined.

(** A pan event of an active drag moves the content by its distance times
    the multiplier, forwards when its direction is the positive direction
    of the axis (down, right) and backwards otherwise; dragging the thumb by
    the free length of the track, containerExtent - thumbSize, moves the
    content by the whole scroll range contentExtent - containerExtent. *)
Theorem drag_maps_track_to_content
  (props : Props) (e : PanEvent) (axis : Axis) (st : State)
  (ref : Js.num) (containerExtent contentExtent start d : Q) :
  Js.value (get axis (container st)) containerExtent ->
  Js.value (get axis (size st)) contentExtent ->
  50 < containerExtent ->
  containerExtent + 1 < contentExtent ->
  panning st = true ->
  panRefPos st = Some ref ->
  Js.value ref start ->
  isFirst e = false ->
  Js.value (distanceAt (dist (dirProps axis)) (distance e)) d ->
  let free := containerExtent - inject_Z (specThumbSize containerExtent contentExtent) in
  let written :=
    readScroll (scroll (dirProps axis)) (target (onPanThumb props e axis st)) in
  (direction e = dir (dirProps axis) ->
   Js.value written (start + d * ((contentExtent - containerExtent) / free)))
  /\ (direction e <> dir (dirProps axis) ->
      Js.value written (start - d * ((contentExtent - containerExtent) / free)))
  /\ (direction e = dir (dirProps axis) -> d == free ->
      Js.value written (start + (contentExtent - containerExtent))).
Proof.
  intros Hc Hs H50 Hlt Hp Hr Hv Hf Hd free written.
  pose proof (specThumbSize_below_container _ _ H50 Hlt) as Ht.
  pose proof (multiplier_value axis st containerExtent contentExtent
                Hc Hs H50 Hlt) as Hm.
  fold free in Hm.
  assert (Hw : written
               = Js.add ref (Js.mul (signedDistance e axis) (multiplier axis st))).
  { unfold written. rewrite (onPanThumb_active props e axis st Hf Hp).
    rewrite readScroll_setScroll. unfold panPosition.
    replace (multiplier axis (if isFinal e then with_panning false st else st))
      with (multiplier axis st) by (destruct (isFinal e); reflexivity).
    replace (panRefPos (if isFinal e then with_panning false st else st))
      with (panRefPos st) by (destruct (isFinal e); reflexivity).
    now rewrite Hr. }
  assert (Hfwd : direction e = dir (dirProps axis) ->
                 Js.value written
                   (start + inject_Z 1 * d * ((contentExtent - containerExtent) / free))).
  { intros Hdir. rewrite Hw. unfold signedDistance.
    rewrite (proj2 (Direction_eqb_eq _ _) Hdir).
    apply JsFacts.value_add; [exact Hv |].
    apply JsFacts.value_mul; [| exact Hm].
    apply JsFacts.value_mul; [apply JsFacts.value_ofZ | exact Hd]. }
  split; [| split].
  - intros Hdir. eapply JsFacts.value_ext; [exact (Hfwd Hdir) |].
    change (inject_Z 1) with 1. ring.
  - intros Hdir. rewrite Hw. unfold signedDistance.
    destruct (Direction_eqb (direction e) (dir (dirProps axis))) eqn:E;
      [apply Direction_eqb_eq in E; contradiction |].
    apply (JsFacts.value_ext _
             (start + inject_Z (-1) * d * ((contentExtent - containerExtent) / free))).
    + apply JsFacts.value_add; [exact Hv |].
      apply JsFacts.value_mul; [| exact Hm].
      apply JsFacts.value_mul; [apply JsFacts.value_ofZ | exact Hd].
    + change (inject_Z (-1)) with (-1 # 1). ring.
  - intros Hdir Hfree. eapply JsFacts.value_ext; [exact (Hfwd Hdir) |].
    change (inject_Z 1) with 1. rewrite Hfree. field. unfold free. lra.
Qed.

Lemma drag_maps_track_to_content_witness :
  let st := with_panRefPos (Some (Js.ofZ 120))
              (with_panning true
                 (geometry vertical (Js.ofZ 100) (Js.ofZ 400) (Js.ofZ 120))) in
  let e := panEvent false false 50 down in
  let free := 100 - inject_Z (specThumbSize 100 400) in
  let written :=
    readScroll (scroll (dirProps vertical))
      (target (onPanThumb defaultProps e vertical st)) in
  (direction e = dir (dirProps vertical) ->
   Js.value written (120 + 50 * ((400 - 100) / free)))
  /\ (direction e <> dir (dirProps vertical) ->
      Js.value written (120 - 50 * ((400 - 100) / free)))
  /\ (direction e = dir (dirProps vertical) -> 50 == free ->
      Js.value written (120 + (400 - 100))).
Proof.
  intros st e.
  apply (drag_maps_track_to_content defaultProps e vertical st
           (Js.ofZ 120) 100 400 120 50); reflexivity.
Defined.

(** A pan event changes nothing but the drag and the scroll offset of its
    own axis: the positions, the extents, the hover flag, the visibility
    window and its timeouts, the console, the emission requests, the calls
    recorded on the target and the scroll offset of the other axis are as
    before. *)
Theorem onPanThumb_frame
  (props : Props) (e : PanEvent) (axis : Axis) (st : State) :
  let st' := onPanThumb props e axis st in
  position st' = position st
  /\ size st' = size st
  /\ container st' = container st
  /\ hover st' = hover st
  /\ tempShowing st' = tempShowing st
  /\ timer st' = timer st
  /\ timeouts st' = timeouts st
  /\ console st' = console st
  /\ emitScrollCalls st' = emitScrollCalls st
  /\ dispatched st' = dispatched st
  /\ scrollCalls (target st') = scrollCalls (target st)
  /\ readScroll (scroll (dirProps (otherAxis axis))) (target st')
     = readScroll (scroll (dirProps (otherAxis axis))) (target st).
Proof.
  unfold onPanThumb, panGate.
  destruct (isFirst e), (thumbHidden props axis st), (panning st), (isFinal e),
    axis; cbn; repeat split.
Qed.

(** ** The track click *)

Lemma leb_false_inv (a b : Js.num) (p q : Q) :
  Js.value a p -> Js.value b q -> Js.leb a b = false -> q < p.
Proof.
  intros H1 H2 H. rewrite (JsFacts.leb_value a b p q H1 H2) in H.
  destruct (Qlt_le_dec q p) as [Hlt | Hle]; [exact Hlt |].
  apply Qle_bool_iff in Hle. congruence.
Qed.

Lemma thumbHidden_false_scrollable
  (props : Props) (axis : Axis) (st : State) (containerExtent contentExtent : Q) :
  Js.value (get axis (container st)) containerExtent ->
  Js.value (get axis (size st)) contentExtent ->
  thumbHidden props axis st = false ->
  containerExtent + 1 < contentExtent.
Proof.
  intros Hc Hs H. unfold thumbHidden in H. apply orb_false_elim in H.
  destruct H as [_ H].
  apply (leb_false_inv _ _ contentExtent (containerExtent + inject_Z 1)) in H;
    [exact H | exact Hs |].
  apply JsFacts.value_add; [exact Hc | apply JsFacts.value_ofZ].
Qed.

(** A mouse down on the bar of a visible thumb writes
    (offset - thumbSize / 2) / containerExtent * contentExtent to the scroll
    offset of its axis, a negative number when the click is closer to the
    start of the track than half a thumb; the other axis keeps its offset,
    the event is passed on to the thumb exactly when the thumb element is
    mounted, and no drag is started by the handler itself. *)
Theorem track_click_position
  (props : Props) (evt : MouseEvt) (axis : Axis) (st : State)
  (o containerExtent contentExtent : Q) :
  thumbHidden props axis st = false ->
  Js.value (offsetAt (offset (dirProps axis)) evt) o ->
  Js.value (get axis (container st)) containerExtent ->
  Js.value (get axis (size st)) contentExtent ->
  0 < containerExtent ->
  let st' := onMousedown props evt axis st in
  let t := inject_Z (specThumbSize containerExtent contentExtent) in
  thumbSize axis st = Js.ofZ (specThumbSize containerExtent contentExtent)
  /\ Js.value (readScroll (scroll (dirProps axis)) (target st'))
       ((o - t / 2) / containerExtent * contentExtent)
  /\ (o < t / 2 ->
      (o - t / 2) / containerExtent * contentExtent < 0)
  /\ readScroll (scroll (dirProps (otherAxis axis))) (target st')
     = readScroll (scroll (dirProps (otherAxis axis))) (target st)
  /\ dispatched st'
     = (if get axis (thumbRef st) then dispatched st ++ [axis] else dispatched st)
  /\ panning st' = panning st
  /\ panRefPos st' = panRefPos st.
Proof.
  intros Hh Ho Hc Hs Hpos st' t.
  pose proof (thumbHidden_false_scrollable props axis st _ _ Hc Hs Hh) as Hlt.
  assert (Et : thumbSize axis st
               = Js.ofZ (specThumbSize containerExtent contentExtent))
    by (apply thumbSize_ofZ; [assumption .. | lra]).
  split; [exact Et |].
  assert (Est : st'
    = (let st1 :=
         setScroll
           (Js.mul
              (Js.div
                 (Js.sub (offsetAt (offset (dirProps axis)) evt)
                    (Js.div (thumbSize axis st) (Js.ofZ 2)))
                 (get axis (container st)))
              (get axis (size st))) axis st in
       if get axis (thumbRef st1)
       then with_dispatched (dispatched st1 ++ [axis]) st1
       else st1)).
  { unfold st', onMousedown. now rewrite Hh. }
  split; [| split; [| split; [| split; [| split]]]].
  - rewrite Est. cbn zeta.
    match goal with
    | |- context [if ?b then _ else _] => destruct b
    end;
    [change (target (with_dispatched ?d ?s)) with (target s) |];
    rewrite readScroll_setScroll; rewrite Et;
    (apply JsFacts.value_mul; [| exact Hs]);
    (apply JsFacts.value_div; [| exact Hc | lra]);
    (apply JsFacts.value_sub; [exact Ho |]);
    (apply (JsFacts.value_div _ _ _ (inject_Z 2));
       [apply JsFacts.value_ofZ | apply JsFacts.value_ofZ | discriminate]).
  - intros Hlow.
    assert (H1 : (o - t / 2) / containerExtent < 0).
    { apply Qlt_shift_div_r; lra. }
    nra.
  - rewrite Est. cbn zeta. destruct axis;
      match goal with
      | |- context [if ?b then _ else _] => destruct b
      end; reflexivity.
  - rewrite Est. cbn zeta. destruct axis; cbn;
      match goal with
      | |- context [if ?b then _ else _] => destruct b
      end; reflexivity.
  - rewrite Est. cbn zeta.
    match goal with
    | |- context [if ?b then _ else _] => destruct b
    end; reflexivity.
  - rewrite Est. cbn zeta.
    match goal with
    | |- context [if ?b then _ else _] => destruct b
    end; reflexivity.
Qed.

Lemma track_click_position_witness :
  let st := with_hover true
              (geometry vertical (Js.ofZ 200) (Js.ofZ 1000) (Js.ofZ 0)) in
  let evt := {| evtOffsetX := Js.ofZ 7; evtOffsetY := Js.ofZ 120 |} in
  let st' := onMousedown defaultProps evt vertical st in
  let t := inject_Z (specThumbSize 200 1000) in
  thumbSize vertical st = Js.ofZ (specThumbSize 200 1000)
  /\ Js.value (readScroll (scroll (dirProps vertical)) (target st'))
       ((120 - t / 2) / 200 * 1000)
  /\ (120 < t / 2 -> (120 - t / 2) / 200 * 1000 < 0)
  /\ readScroll (scroll (dirProps (otherAxis vertical))) (target st')
     = readScroll (scroll (dirProps (otherAxis vertical))) (target st)
  /\ dispatched st'
     = (if get vertical (thumbRef st)
        then dispatched st ++ [vertical] else dispatched st)
  /\ panning st' = panning st
  /\ panRefPos st' = panRefPos st.
Proof.
  intros st evt.
  apply (track_click_position defaultProps evt vertical st 120 200 1000);
    reflexivity.
Defined.

(** The click of the witness, at 120 on a track of 200 with content 1000
    and a thumb of 50, writes 475. *)
Example track_click_at_120 :
  targetScrollTop
    (target
       (onMousedown defaultProps
          {| evtOffsetX := Js.ofZ 7; evtOffsetY := Js.ofZ 120 |} vertical
          (with_hover true
             (geometry vertical (Js.ofZ 200) (Js.ofZ 1000) (Js.ofZ 0)))))
  = Js.ofZ 475.
Proof. reflexivity. Qed.

(** ** Event intake *)

Lemma startTimer_frame (props : Props) (s : State) :
  container (startTimer props s) = container s
  /\ size (startTimer props s) = size s
  /\ position (startTimer props s) = position s
  /\ hover (startTimer props s) = hover s
  /\ panning (startTimer props s) = panning s
  /\ panRefPos (startTimer props s) = panRefPos s
  /\ target (startTimer props s) = target s
  /\ console (startTimer props s) = console s.
Proof.
  unfold startTimer. destruct (tempShowing s), (onScroll props); repeat split.
Qed.

Lemma startTimer_tempShowing (props : Props) (s : State) :
  tempShowing (startTimer props s) = true.
Proof.
  unfold startTimer. destruct (tempShowing s) eqn:E, (onScroll props); cbn;
    try reflexivity; exact E.
Qed.

Lemma startTimer_nextHandle (props : Props) (s : State) :
  nextHandle (timeouts (startTimer props s)) = S (nextHandle (timeouts s)).
Proof.
  unfold startTimer.
  destruct (tempShowing s), (timer s), (onScroll props); reflexivity.
Qed.

Lemma eqb_same (a : Js.num) : Js.isNaN a = false -> Js.eqb a a = true.
Proof.
  destruct a as [| s | q]; cbn; intros H.
  - discriminate.
  - apply Bool.eqb_reflx.
  - apply Qeq_bool_iff. reflexivity.
Qed.

Lemma eqb_not_NaN (a b : Js.num) : Js.eqb a b = true -> Js.isNaN b = false.
Proof. destruct a, b; cbn; congruence. Qed.

Lemma agree_eqb (a b : Js.num) : Js.isNaN b = false -> agree a b -> Js.eqb a b = true.
Proof. intros Hn [E | E]; [subst; now apply eqb_same | exact E]. Qed.

Lemma updateContainer_unchanged (props : Props) (h w : Js.num) (s : State) :
  Js.eqb (get vertical (container s)) h = true ->
  Js.eqb (get horizontal (container s)) w = true ->
  updateContainer props h w s = s.
Proof.
  intros E1 E2. unfold updateContainer. rewrite E1. cbn [negb].
  now rewrite E2.
Qed.

Lemma updateScroll_unchanged (props : Props) (t l : Js.num) (s : State) :
  Js.eqb (get vertical (position s)) t = true ->
  Js.eqb (get horizontal (position s)) l = true ->
  updateScroll props t l s = s.
Proof.
  intros E1 E2. unfold updateScroll. rewrite E1. cbn [negb].
  now rewrite E2.
Qed.

Lemma updateScrollSize_unchanged (props : Props) (h w : Js.num) (s : State) :
  Js.eqb (get vertical (size s)) h = true ->
  Js.eqb (get horizontal (size s)) w = true ->
  updateScrollSize props h w s = s.
Proof.
  intros E1 E2. unfold updateScrollSize. rewrite E2. cbn [negb].
  now rewrite E1.
Qed.

Lemma updateContainer_stored (props : Props) (h w : Js.num) (s : State) :
  agree (get vertical (container (updateContainer props h w s))) h
  /\ agree (get horizontal (container (updateContainer props h w s))) w.
Proof.
  unfold updateContainer, agree.
  destruct (Js.eqb (get vertical (container s)) h) eqn:E1; cbn [negb];
    cbn [container with_container get set ofVertical ofHorizontal];
    destruct (Js.eqb (ofHorizontal (container s)) w) eqn:E2; cbn [negb];
    try rewrite (proj1 (startTimer_frame props _));
    cbn [container with_container get set ofVertical ofHorizontal]; auto.
Qed.

Lemma updateScroll_stored (props : Props) (t l : Js.num) (s : State) :
  agree (get vertical (position (updateScroll props t l s))) t
  /\ agree (get horizontal (position (updateScroll props t l s))) l.
Proof.
  unfold updateScroll, agree.
  destruct (Js.eqb (get vertical (position s)) t) eqn:E1; cbn [negb];
    cbn [position with_position get set ofVertical ofHorizontal];
    destruct (Js.eqb (ofHorizontal (position s)) l) eqn:E2; cbn [negb];
    try rewrite (proj1 (proj2 (proj2 (startTimer_frame props _))));
    cbn [position with_position get set ofVertical ofHorizontal]; auto.
Qed.

Lemma updateScrollSize_stored (props : Props) (h w : Js.num) (s : State) :
  agree (get vertical (size (updateScrollSize props h w s))) h
  /\ agree (get horizontal (size (updateScrollSize props h w s))) w.
Proof.
  unfold updateScrollSize, agree.
  destruct (Js.eqb (get horizontal (size s)) w) eqn:E2; cbn [negb];
    repeat (rewrite (proj1 (proj2 (startTimer_frame props _)))
            || cbn [size with_size get set ofVertical ofHorizontal]);
    destruct (Js.eqb (ofVertical (size s)) h) eqn:E1; cbn [negb];
    repeat (rewrite (proj1 (proj2 (startTimer_frame props _)))
            || cbn [size with_size get set ofVertical ofHorizontal]); auto.
Qed.

(** Event intake is idempotent: a resize or scroll notification delivered a
    second time with the same numbers (none of them NaN) changes nothing, so
    it neither restarts the visibility timer nor requests an emission. *)
Theorem intake_idempotent (props : Props) (a b : Js.num) (st : State) :
  Js.isNaN a = false ->
  Js.isNaN b = false ->
  updateContainer props a b (updateContainer props a b st)
  = updateContainer props a b st
  /\ updateScrollSize props a b (updateScrollSize props a b st)
     = updateScrollSize props a b st
  /\ updateScroll props a b (updateScroll props a b st)
     = updateScroll props a b st.
Proof.
  intros Ha Hb. split; [| split].
  - destruct (updateContainer_stored props a b st) as [H1 H2].
    apply updateContainer_unchanged; now apply agree_eqb.
  - destruct (updateScrollSize_stored props a b st) as [H1 H2].
    apply updateScrollSize_unchanged; now apply agree_eqb.
  - destruct (updateScroll_stored props a b st) as [H1 H2].
    apply updateScroll_unchanged; now apply agree_eqb.
Qed.

Lemma intake_idempotent_witness :
  updateContainer defaultProps (Js.ofZ 200) (Js.ofZ 300)
    (updateContainer defaultProps (Js.ofZ 200) (Js.ofZ 300) initial)
  = updateContainer defaultProps (Js.ofZ 200) (Js.ofZ 300) initial
  /\ updateScrollSize defaultProps (Js.ofZ 200) (Js.ofZ 300)
       (updateScrollSize defaultProps (Js.ofZ 200) (Js.ofZ 300) initial)
     = updateScrollSize defaultProps (Js.ofZ 200) (Js.ofZ 300) initial
  /\ updateScroll defaultProps (Js.ofZ 200) (Js.ofZ 300)
       (updateScroll defaultProps (Js.ofZ 200) (Js.ofZ 300) initial)
     = updateScroll defaultProps (Js.ofZ 200) (Js.ofZ 300) initial.
Proof.
  apply (intake_idempotent defaultProps (Js.ofZ 200) (Js.ofZ 300) initial);
    reflexivity.
Defined.

(** A NaN is never taken as unchanged: a scroll notification with a NaN
    offset restarts the visibility timer every time it is delivered. *)
Theorem intake_NaN_always_restarts (props : Props) (l : Js.num) (st : State) :
  tempShowing (updateScroll props Js.NaN l st) = true
  /\ nextHandle (timeouts (updateScroll props Js.NaN l st))
     = S (nextHandle (timeouts st))
  /\ updateScroll props Js.NaN l (updateScroll props Js.NaN l st)
     <> updateScroll props Js.NaN l st.
Proof.
  assert (H : forall s,
             tempShowing (updateScroll props Js.NaN l s) = true
             /\ nextHandle (timeouts (updateScroll props Js.NaN l s))
                = S (nextHandle (timeouts s))).
  { intros s. unfold updateScroll.
    replace (Js.eqb (get vertical (position s)) Js.NaN) with false
      by (destruct (get vertical (position s)); reflexivity).
    cbn [negb].
    match goal with
    | |- context [negb (Js.eqb ?x ?y)] => destruct (negb (Js.eqb x y))
    end; cbv beta iota zeta;
    (split; [apply startTimer_tempShowing |
             rewrite startTimer_nextHandle; reflexivity]). }
  destruct (H st) as [H1 H2]. split; [exact H1 |]. split; [exact H2 |].
  intros E. destruct (H (updateScroll props Js.NaN l st)) as [_ H3].
  rewrite E in H3. lia.
Qed.

(** After a scroll notification [getScrollPosition] gives back the offsets
    that were reported, up to what [!==] tells apart. *)
Theorem getScrollPosition_after_updateScroll
  (props : Props) (t l : Js.num) (st : State) :
  agree (fst (getScrollPosition (updateScroll props t l st))) t
  /\ agree (snd (getScrollPosition (updateScroll props t l st))) l.
Proof.
  unfold getScrollPosition. cbn [fst snd]. apply updateScroll_stored.
Qed.

(** ** Visibility of the thumb *)

Lemma advance_frame (ms : nat) (s : State) :
  container (advance ms s) = container s
  /\ size (advance ms s) = size s
  /\ hover (advance ms s) = hover s
  /\ panning (advance ms s) = panning s.
Proof. unfold advance. destruct (existsb _ _); repeat split. Qed.

Lemma thumbHidden_scrollable
  (props : Props) (axis : Axis) (s : State) (containerExtent contentExtent : Q) :
  Js.value (get axis (container s)) containerExtent ->
  Js.value (get axis (size s)) contentExtent ->
  containerExtent + 1 < contentExtent ->
  thumbHidden props axis s
  = negb (match visible props with None => hover s | Some v => v end)
    && negb (tempShowing s) && negb (panning s).
Proof.
  intros Hc Hs Hlt. unfold thumbHidden.
  rewrite (JsFacts.leb_false _ _ contentExtent (containerExtent + inject_Z 1));
    [apply orb_false_r | exact Hs | | exact Hlt].
  apply JsFacts.value_add; [exact Hc | apply JsFacts.value_ofZ].
Qed.

(** After any activity that starts the visibility timer, the thumb of an
    axis with something to scroll is shown for the next [delay]
    milliseconds; from then on it is hidden again unless the pointer hovers
    (or the [visible] prop forces it) or a drag is going on. *)
Theorem thumb_shown_for_delay_after_activity
  (props : Props) (axis : Axis) (st : State)
  (containerExtent contentExtent : Q) (ms : nat) :
  timerInv st ->
  Js.value (get axis (container st)) containerExtent ->
  Js.value (get axis (size st)) contentExtent ->
  containerExtent + 1 < contentExtent ->
  ((ms < delay props)%nat ->
   thumbHidden props axis (advance ms (startTimer props st)) = false)
  /\ ((delay props <= ms)%nat ->
      thumbHidden props axis (advance ms (startTimer props st))
      = negb (match visible props with None => hover st | Some v => v end)
        && negb (panning st)).
Proof.
  intros Hinv Hc Hs Hlt.
  pose proof (startTimer_window props st Hinv) as W.
  destruct (startTimer_opens props st Hinv) as [_ [_ [_ Hnow]]].
  destruct (startTimer_frame props st) as [Fc [Fs [_ [Fh [Fp _]]]]].
  destruct (advance_frame ms (startTimer props st)) as [Ac [As [Ah Ap]]].
  assert (Hv : thumbHidden props axis (advance ms (startTimer props st))
               = negb (match visible props with
                       | None => hover st
                       | Some v => v
                       end)
                 && negb (tempShowing (advance ms (startTimer props st)))
                 && negb (panning st)).
  { rewrite (thumbHidden_scrollable props axis _ containerExtent contentExtent);
      [| rewrite Ac, Fc; exact Hc | rewrite As, Fs; exact Hs | exact Hlt].
    now rewrite Ah, Ap, Fh, Fp. }
  split; intros Hms; rewrite Hv.
  - destruct (advance_before ms _ _ W) as [[Ht _] _]; [lia |].
    rewrite Ht. cbn. now rewrite andb_false_r.
  - destruct (advance_after ms _ _ W) as [Ht _]; [lia |].
    rewrite Ht. cbn. now rewrite andb_true_r.
Qed.

Lemma thumb_shown_for_delay_after_activity_witness :
  let st := geometry vertical (Js.ofZ 200) (Js.ofZ 1000) (Js.ofZ 0) in
  ((999 < delay defaultProps)%nat ->
   thumbHidden defaultProps vertical (advance 999 (startTimer defaultProps st))
   = false)
  /\ ((delay defaultProps <= 999)%nat ->
      thumbHidden defaultProps vertical (advance 999 (startTimer defaultProps st))
      = negb (match visible defaultProps with
              | None => hover st
              | Some v => v
              end)
        && negb (panning st)).
Proof.
  intros st.
  apply (thumb_shown_for_delay_after_activity defaultProps vertical st 200 1000 999);
    try reflexivity.
  left. split; reflexivity.
Defined.

(** The content gets its active style only while both thumbs are shown: an
    axis with nothing to scroll (content at most one pixel above the
    container) keeps the plain content style, whatever the other axis, the
    pointer or a drag do. *)
Theorem mainStyle_needs_both_thumbs
  {A : Type} (props : Props) (contentStyle contentActiveStyle : A)
  (axis : Axis) (st : State) (containerExtent contentExtent : Q) :
  Js.value (get axis (container st)) containerExtent ->
  Js.value (get axis (size st)) contentExtent ->
  (contentExtent <= containerExtent + 1 ->
   mainStyle props contentStyle contentActiveStyle st = contentStyle)
  /\ (thumbHidden props vertical st = false ->
      thumbHidden props horizontal st = false ->
      mainStyle props contentStyle contentActiveStyle st = contentActiveStyle).
Proof.
  intros Hc Hs. split.
  - intros Hle.
    pose proof (thumbHidden_nothing_to_scroll props axis st contentExtent
                  containerExtent Hs Hc Hle) as Hh.
    unfold mainStyle. destruct axis; rewrite Hh; [reflexivity |].
    now rewrite orb_true_r.
  - intros Hv Hh. unfold mainStyle. now rewrite Hv, Hh.
Qed.

Lemma mainStyle_needs_both_thumbs_witness :
  let st := with_hover true
              (geometry vertical (Js.ofZ 200) (Js.ofZ 1000) (Js.ofZ 0)) in
  (0 <= 0 + 1 -> mainStyle defaultProps 1%nat 2%nat st = 1%nat)
  /\ (thumbHidden defaultProps vertical st = false ->
      thumbHidden defaultProps horizontal st = false ->
      mainStyle defaultProps 1%nat 2%nat st = 2%nat).
Proof.
  intros st.
  apply (mainStyle_needs_both_thumbs defaultProps 1%nat 2%nat horizontal st 0 0);
    reflexivity.
Defined.

(** ** Across runs of the engine *)

Lemma startTimer_sessionView (props : Props) (s : State) :
  sessionView (startTimer props s) = sessionView s.
Proof.
  unfold startTimer, sessionView.
  destruct (tempShowing s), (onScroll props); reflexivity.
Qed.

Lemma advance_sessionView (ms : nat) (s : State) :
  sessionView (advance ms s) = sessionView s.
Proof. unfold advance. destruct (existsb _ _); reflexivity. Qed.

Lemma updateContainer_sessionView (props : Props) (h w : Js.num) (s : State) :
  sessionView (updateContainer props h w s) = sessionView s.
Proof.
  unfold updateContainer.
  destruct (negb (Js.eqb (get vertical (container s)) h)); cbv beta iota zeta;
    match goal with
    | |- context [negb (Js.eqb ?a ?b)] => destruct (negb (Js.eqb a b))
    end; rewrite ?startTimer_sessionView; reflexivity.
Qed.

Lemma updateScroll_sessionView (props : Props) (t l : Js.num) (s : State) :
  sessionView (updateScroll props t l s) = sessionView s.
Proof.
  unfold updateScroll.
  destruct (negb (Js.eqb (get vertical (position s)) t)); cbv beta iota zeta;
    match goal with
    | |- context [negb (Js.eqb ?a ?b)] => destruct (negb (Js.eqb a b))
    end; rewrite ?startTimer_sessionView; reflexivity.
Qed.

Lemma updateScrollSize_sessionView (props : Props) (h w : Js.num) (s : State) :
  sessionView (updateScrollSize props h w s) = sessionView s.
Proof.
  unfold updateScrollSize.
  destruct (negb (Js.eqb (get horizontal (size s)) w)); cbv beta iota zeta;
    match goal with
    | |- context [negb (Js.eqb ?a ?b)] => destruct (negb (Js.eqb a b))
    end; rewrite ?startTimer_sessionView; try reflexivity.
  change (sessionView (with_size ?x ?y)) with (sessionView y).
  now rewrite startTimer_sessionView.
Qed.

Lemma onMousedown_sessionView
  (props : Props) (evt : MouseEvt) (axis : Axis) (s : State) :
  sessionView (onMousedown props evt axis s) = sessionView s.
Proof.
  unfold onMousedown.
  destruct (thumbHidden props axis s); cbn [negb]; [reflexivity |].
  cbv zeta.
  match goal with
  | |- context [if ?b then _ else _] => destruct b
  end; destruct axis; reflexivity.
Qed.

Lemma onPanThumb_log (props : Props) (e : PanEvent) (axis : Axis) (s : State) :
  console (onPanThumb props e axis s) = console s
  /\ scrollCalls (target (onPanThumb props e axis s)) = scrollCalls (target s).
Proof.
  unfold onPanThumb, panGate.
  destruct (isFirst e), (thumbHidden props axis s), (panning s), (isFinal e),
    axis; cbn; split; reflexivity.
Qed.

Lemma includes_axisOfString (axis : string) :
  includes axisList axis = match axisOfString axis with
                           | Some _ => true
                           | None => false
                           end.
Proof.
  unfold includes, axisList, axisOfString. cbn [existsb].
  destruct (String.eqb axis "vertical"), (String.eqb axis "horizontal");
    reflexivity.
Qed.

Lemma localSetScrollPosition_log
  (axis : string) (off : Js.num) (duration : option Js.num) (s : State) :
  panning (localSetScrollPosition axis off duration s) = panning s
  /\ panRefPos (localSetScrollPosition axis off duration s) = panRefPos s
  /\ console (localSetScrollPosition axis off duration s)
     = console s
       ++ (if includes axisList axis then [] else [wrongAxisMessage])
  /\ scrollCalls (target (localSetScrollPosition axis off duration s))
     = scrollCalls (target s)
       ++ match axisOfString axis with
          | Some a =>
              [{| callAxis := a; callOffset := off; callDuration := duration |}]
          | None => []
          end.
Proof.
  unfold localSetScrollPosition. rewrite includes_axisOfString.
  unfold axisOfString.
  destruct (String.eqb axis "vertical"), (String.eqb axis "horizontal");
    cbn; rewrite ?app_nil_r; repeat split.
Qed.

(** In every state the engine can reach, a drag in progress has its
    reference position: [panRefPos] is set whenever [panning] is true, so the
    position of a pan event is never computed from [undefined]. *)
Theorem drag_reference_is_set (props : Props) (evs : list Event) :
  panning (run props evs initial) = true ->
  exists ref : Js.num, panRefPos (run props evs initial) = Some ref.
Proof.
  assert (Hstep : forall ev s,
             (panning s = true -> panRefPos s <> None) ->
             panning (handle props ev s) = true ->
             panRefPos (handle props ev s) <> None).
  { intros ev s IH.
    assert (Hview : sessionView (handle props ev s) = sessionView s ->
                    panning (handle props ev s) = true ->
                    panRefPos (handle props ev s) <> None).
    { unfold sessionView. intros E Hp.
      injection E as E1 E2 _ _. rewrite E2. apply IH. congruence. }
    destruct ev; cbn [handle].
    - apply Hview, updateContainer_sessionView.
    - apply Hview, updateScrollSize_sessionView.
    - apply Hview, updateScroll_sessionView.
    - unfold onPanThumb, panGate.
      destruct (isFirst e), (thumbHidden props axis s), (panning s) eqn:Ep,
        (isFinal e);
        cbn; intros H; try discriminate; try (apply IH; reflexivity);
        try congruence; destruct axis; cbn; discriminate.
    - apply Hview, onMousedown_sessionView.
    - apply Hview. reflexivity.
    - apply Hview. reflexivity.
    - destruct (localSetScrollPosition_log axis off duration s) as [E1 [E2 _]].
      rewrite E1, E2. exact IH.
    - unfold setScrollPercentage. destruct (axisOfString axis) as [a |];
        [| exact IH].
      match goal with
      | |- context [localSetScrollPosition ?x ?o ?d s] =>
          destruct (localSetScrollPosition_log x o d s) as [E1 [E2 _]]
      end.
      rewrite E1, E2. exact IH.
    - apply Hview. reflexivity.
    - apply Hview, advance_sessionView. }
  assert (Hrun : forall s,
             (panning s = true -> panRefPos s <> None) ->
             panning (run props evs s) = true ->
             panRefPos (run props evs s) <> None).
  { induction evs as [| ev evs IH]; intros s Hs; [exact Hs |].
    cbn [run fold_left]. apply IH. now apply Hstep. }
  intros Hp.
  assert (Hn : panRefPos (run props evs initial) <> None).
  { apply Hrun; [| exact Hp]. cbn. discriminate. }
  destruct (panRefPos (run props evs initial)) as [ref |];
    [now exists ref | congruence].
Qed.

Lemma drag_reference_is_set_witness :
  exists ref : Js.num,
    panRefPos
      (run defaultProps
         [EvContainerResize (Js.ofZ 100) (Js.ofZ 100);
          EvContentResize (Js.ofZ 400) (Js.ofZ 400);
          EvNativeScroll (Js.ofZ 120) (Js.ofZ 0);
          EvPan (panEvent true false 0 down) vertical;
          EvTime 5000;
          EvMouseleave]
         initial) = Some ref.
Proof.
  apply (drag_reference_is_set defaultProps
           [EvContainerResize (Js.ofZ 100) (Js.ofZ 100);
            EvContentResize (Js.ofZ 400) (Js.ofZ 400);
            EvNativeScroll (Js.ofZ 120) (Js.ofZ 0);
            EvPan (panEvent true false 0 down) vertical;
            EvTime 5000;
            EvMouseleave]).
  reflexivity.
Defined.

(** Over any run from construction - resizes, scroll notifications, pan
    events, clicks on a bar, the pointer, the two public setters, the
    mounting of a thumb, the passing of time - the console holds exactly one
    diagnostic per call of the position setter with a wrong axis, and the
    scroll target has received exactly the calls of the two setters with a
    right axis, in order, each on its own axis with its offset and
    duration; nothing else writes to either, and the percentage setter
    never writes a diagnostic. *)
Theorem setter_calls_are_accounted_for (props : Props) (evs : list Event) :
  console (run props evs initial) = repeat wrongAxisMessage (wrongAxisCalls evs)
  /\ scrollCalls (target (run props evs initial))
     = forwardedCalls props evs initial.
Proof.
  assert (Hstep : forall ev s,
             console (handle props ev s)
             = console s ++ repeat wrongAxisMessage (wrongAxisCalls [ev])
             /\ scrollCalls (target (handle props ev s))
                = scrollCalls (target s) ++ callsOf ev s).
  { intros ev s.
    assert (Hview : sessionView (handle props ev s) = sessionView s ->
                    console (handle props ev s) = console s
                    /\ scrollCalls (target (handle props ev s))
                       = scrollCalls (target s)).
    { unfold sessionView. intros E. injection E as _ _ E3 E4. now split. }
    destruct ev; cbn [handle wrongAxisCalls callsOf repeat];
      rewrite ?app_nil_r.
    - apply Hview, updateContainer_sessionView.
    - apply Hview, updateScrollSize_sessionView.
    - apply Hview, updateScroll_sessionView.
    - apply onPanThumb_log.
    - apply Hview, onMousedown_sessionView.
    - split; reflexivity.
    - split; reflexivity.
    - destruct (localSetScrollPosition_log axis off duration s)
        as [_ [_ [E3 E4]]].
      rewrite E3, E4. split.
      + destruct (includes axisList axis); reflexivity.
      + destruct (axisOfString axis); reflexivity.
    - unfold setScrollPercentage.
      destruct (axisOfString axis) as [a |] eqn:Ea;
        [| now rewrite app_nil_r].
      match goal with
      | |- context [localSetScrollPosition ?x ?o ?d s] =>
          destruct (localSetScrollPosition_log x o d s) as [_ [_ [E3 E4]]]
      end.
      rewrite E3, E4, includes_axisOfString, Ea. now rewrite app_nil_r.
    - split; reflexivity.
    - apply Hview, advance_sessionView. }
  assert (Hrun : forall s,
             console (run props evs s)
             = console s ++ repeat wrongAxisMessage (wrongAxisCalls evs)
             /\ scrollCalls (target (run props evs s))
                = scrollCalls (target s) ++ forwardedCalls props evs s).
  { induction evs as [| ev evs IH]; intros s.
    - cbn. now rewrite !app_nil_r.
    - cbn [run fold_left forwardedCalls].
      destruct (IH (handle props ev s)) as [I1 I2].
      destruct (Hstep ev s) as [S1 S2].
      change (fold_left (fun s0 ev0 => handle props ev0 s0) evs (handle props ev s))
        with (run props evs (handle props ev s)).
      rewrite I1, I2, S1, S2, <- !app_assoc. split; f_equal.
      destruct ev; try reflexivity.
      cbn [wrongAxisCalls]. destruct (includes axisList axis); reflexivity. }
  destruct (Hrun initial) as [H1 H2]. split; [exact H1 | exact H2].
Qed.

(** A run with both setters, right and wrong axes: one diagnostic, and the
    two calls with a right axis in order, the second with the offset
    1/2 * (1000 - 200). *)
Example setter_calls_in_a_run :
  let st :=
    run defaultProps
      [EvContainerResize (Js.ofZ 200) (Js.ofZ 200);
       EvContentResize (Js.ofZ 1000) (Js.ofZ 1000);
       EvSetScrollPosition "horizontal" (Js.ofZ 30) None;
       EvSetScrollPosition "diagonal" (Js.ofZ 30) None;
       EvSetScrollPercentage "diagonal" (Js.Fin (1 # 2)) None;
       EvSetScrollPercentage "vertical" (Js.Fin (1 # 2)) None]
      initial in
  console st = [wrongAxisMessage]
  /\ scrollCalls (target st)
     = [{| callAxis := horizontal; callOffset := Js.ofZ 30; callDuration := None |};
        {| callAxis := vertical; callOffset := Js.ofZ 400; callDuration := None |}].
Proof. split; reflexivity. Qed.

(** ** The percentage setter *)

(** [setScrollPercentage] with a right axis makes one call on the target,
    on that axis, with the offset percentage * (contentExtent -
    containerExtent), and changes nothing else; with a wrong axis it throws
    while reading the extents, before the position setter could report the
    axis: no diagnostic is written. *)
Theorem setScrollPercentage_outcome
  (axis : string) (percent : Js.num) (duration : option Js.num) (st : State) :
  match axisOfString axis with
  | Some a =>
      includes axisList axis = true
      /\ setScrollPercentage axis percent duration st
         = Some
             (with_target
                {| targetScrollTop := targetScrollTop (target st);
                   targetScrollLeft := targetScrollLeft (target st);
                   scrollCalls :=
                     scrollCalls (target st)
                     ++ [{| callAxis := a;
                            callOffset :=
                              Js.mul percent
                                (Js.sub (get a (size st)) (get a (container st)));
                            callDuration := duration |}] |}
                st)
  | None =>
      includes axisList axis = false
      /\ setScrollPercentage axis percent duration st = None
  end.
Proof.
  rewrite includes_axisOfString.
  unfold setScrollPercentage, localSetScrollPosition.
  rewrite includes_axisOfString. unfold axisOfString.
  destruct (String.eqb axis "vertical") eqn:Ev;
    [| destruct (String.eqb axis "horizontal") eqn:Eh];
    cbn [negb]; split; reflexivity.
Qed.

Lemma axisOfString_axisName (axis : Axis) : axisOfString (axisName axis) = Some axis.
Proof. destruct axis; reflexivity. Qed.

Lemma setScrollPercentage_outcome_aux
  (axis : string) (percent : Js.num) (duration : option Js.num) (st : State)
  (a : Axis) :
  axisOfString axis = Some a ->
  setScrollPercentage axis percent duration st
  = Some
      (with_target
         {| targetScrollTop := targetScrollTop (target st);
            targetScrollLeft := targetScrollLeft (target st);
            scrollCalls :=
              scrollCalls (target st)
              ++ [{| callAxis := a;
                     callOffset :=
                       Js.mul percent
                         (Js.sub (get a (size st)) (get a (container st)));
                     callDuration := duration |}] |}
         st).
Proof.
  unfold setScrollPercentage, localSetScrollPosition.
  rewrite includes_axisOfString. unfold axisOfString.
  destruct (String.eqb axis "vertical") eqn:Ev;
    [| destruct (String.eqb axis "horizontal") eqn:Eh];
    intros E; inversion E; subst; reflexivity.
Qed.

(** Setting the percentage that the engine reports asks for the position
    the engine is at, up to the rounding of the percentage: for a position
    within the scroll range, the offset requested is within (contentExtent -
    containerExtent) / 20000 of the position. *)
Theorem percentage_round_trip
  (axis : Axis) (duration : option Js.num) (st : State)
  (pos contentExtent containerExtent : Q) :
  Js.value (get axis (position st)) pos ->
  Js.value (get axis (size st)) contentExtent ->
  Js.value (get axis (container st)) containerExtent ->
  containerExtent < contentExtent ->
  0 <= pos <= contentExtent - containerExtent ->
  exists (st' : State) (off : Js.num) (o : Q),
    setScrollPercentage (axisName axis) (percentage axis st) duration st = Some st'
    /\ scrollCalls (target st')
       = scrollCalls (target st)
         ++ [{| callAxis := axis; callOffset := off; callDuration := duration |}]
    /\ Js.value off o
    /\ Qabs (o - pos) <= (contentExtent - containerExtent) / 20000.
Proof.
  intros Hp Hs Hc Hlt [Hp0 Hp1].
  pose proof (setScrollPercentage_outcome_aux (axisName axis) (percentage axis st)
                duration st axis (axisOfString_axisName axis)) as E.
  assert (Hne : ~ contentExtent == containerExtent) by lra.
  pose proof (percentage_value axis st pos contentExtent containerExtent
                Hp Hs Hc Hne) as Hq.
  set (d := contentExtent - containerExtent) in *.
  assert (Hd : 0 < d) by (unfold d; lra).
  set (x := pos / d).
  assert (Hx : x * d == pos) by (unfold x; field; lra).
  assert (Hx01 : 0 <= x <= 1).
  { split.
    - apply Qle_shift_div_l; lra.
    - apply Qle_shift_div_r; lra. }
  assert (Ec : clamp x 0 1 == x).
  { unfold clamp.
    destruct (JsFacts.Qclamp_cases x 0 1)
      as [[? F] | [[? [? F]] | [[? [? F]] | [? [? F]]]]]; rewrite F; lra. }
  pose proof (roundTo4_nearest (clamp x 0 1)) as Hr.
  apply Qabs_Qle_condition in Hr.
  set (q := roundTo4 (clamp x 0 1)) in *.
  eexists. exists (Js.mul (percentage axis st)
                     (Js.sub (get axis (size st)) (get axis (container st)))).
  exists (q * d).
  split; [exact E |]. split; [reflexivity |]. split.
  - apply JsFacts.value_mul; [exact Hq |].
    apply JsFacts.value_sub; assumption.
  - apply Qabs_Qle_condition.
    assert (Ed : d / 20000 == d * (1 # 20000)) by (unfold Qdiv; reflexivity).
    rewrite Ed. rewrite Ec in Hr. destruct Hr as [Hr1 Hr2]. split; nra.
Qed.

Lemma percentage_round_trip_witness :
  exists (st' : State) (off : Js.num) (o : Q),
    setScrollPercentage (axisName vertical)
      (percentage vertical
         (geometry vertical (Js.ofZ 200) (Js.ofZ 1000) (Js.Fin (1 # 3))))
      None
      (geometry vertical (Js.ofZ 200) (Js.ofZ 1000) (Js.Fin (1 # 3)))
    = Some st'
    /\ scrollCalls (target st')
       = scrollCalls
           (target (geometry vertical (Js.ofZ 200) (Js.ofZ 1000) (Js.Fin (1 # 3))))
         ++ [{| callAxis := vertical; callOffset := off; callDuration := None |}]
    /\ Js.value off o
    /\ Qabs (o - (1 # 3)) <= (1000 - 200) / 20000.
Proof.
  apply (percentage_round_trip vertical None
           (geometry vertical (Js.ofZ 200) (Js.ofZ 1000) (Js.Fin (1 # 3)))
           (1 # 3) 1000 200); try reflexivity.
  split; unfold Qle; simpl; lia.
Defined.

(** ** Hover, listeners and the end of a drag *)

(** With the [visible] prop left at null the pointer decides: entering
    shows the thumb of an axis with something to scroll, and after leaving
    it is hidden unless the visibility window is open or a drag is going on.
    With the prop set the pointer has no say. *)
Theorem hover_controls_thumb
  (props : Props) (axis : Axis) (st : State) (containerExtent contentExtent : Q) :
  Js.value (get axis (container st)) containerExtent ->
  Js.value (get axis (size st)) contentExtent ->
  containerExtent + 1 < contentExtent ->
  (visible props = None ->
   thumbHidden props axis (onMouseenter st) = false
   /\ thumbHidden props axis (onMouseleave st)
      = negb (tempShowing st) && negb (panning st))
  /\ (forall v : bool,
        visible props = Some v ->
        thumbHidden props axis (onMouseenter st) = thumbHidden props axis st
        /\ thumbHidden props axis (onMouseleave st) = thumbHidden props axis st).
Proof.
  intros Hc Hs Hlt.
  rewrite (thumbHidden_scrollable props axis (onMouseenter st) _ _ Hc Hs Hlt).
  rewrite (thumbHidden_scrollable props axis (onMouseleave st) _ _ Hc Hs Hlt).
  rewrite (thumbHidden_scrollable props axis st _ _ Hc Hs Hlt).
  split.
  - intros Hv. rewrite Hv. cbn. split; reflexivity.
  - intros v Hv. rewrite Hv. cbn. split; reflexivity.
Qed.

Lemma hover_controls_thumb_witness :
  let st := geometry vertical (Js.ofZ 200) (Js.ofZ 1000) (Js.ofZ 0) in
  (visible defaultProps = None ->
   thumbHidden defaultProps vertical (onMouseenter st) = false
   /\ thumbHidden defaultProps vertical (onMouseleave st)
      = negb (tempShowing st) && negb (panning st))
  /\ (forall v : bool,
        visible defaultProps = Some v ->
        thumbHidden defaultProps vertical (onMouseenter st)
        = thumbHidden defaultProps vertical st
        /\ thumbHidden defaultProps vertical (onMouseleave st)
           = thumbHidden defaultProps vertical st).
Proof.
  intros st.
  apply (hover_controls_thumb defaultProps vertical st 200 1000); reflexivity.
Defined.

Lemma startTimer_no_listener (props : Props) (s : State) :
  onScroll props = false ->
  emitScrollCalls (startTimer props s) = emitScrollCalls s.
Proof.
  intros H. unfold startTimer. rewrite H. destruct (tempShowing s); reflexivity.
Qed.

(** Without an [onScroll] listener the engine never asks for a scroll
    emission, whatever happens to it. *)
Theorem no_listener_no_emission (props : Props) (evs : list Event) :
  onScroll props = false ->
  emitScrollCalls (run props evs initial) = 0%nat.
Proof.
  intros Hl.
  assert (Hstep : forall ev s,
             emitScrollCalls (handle props ev s) = emitScrollCalls s).
  { intros ev s. destruct ev; cbn [handle].
    - unfold updateContainer.
      destruct (negb (Js.eqb (get vertical (container s)) height));
        cbv beta iota zeta;
        match goal with
        | |- context [negb (Js.eqb ?a ?b)] => destruct (negb (Js.eqb a b))
        end; rewrite ?(startTimer_no_listener props _ Hl); reflexivity.
    - unfold updateScrollSize.
      destruct (negb (Js.eqb (get horizontal (size s)) width));
        cbv beta iota zeta;
        match goal with
        | |- context [negb (Js.eqb ?a ?b)] => destruct (negb (Js.eqb a b))
        end; rewrite ?(startTimer_no_listener props _ Hl); try reflexivity.
      change (emitScrollCalls (with_size ?x ?y)) with (emitScrollCalls y).
      now rewrite (startTimer_no_listener props _ Hl).
    - unfold updateScroll.
      destruct (negb (Js.eqb (get vertical (position s)) top));
        cbv beta iota zeta;
        match goal with
        | |- context [negb (Js.eqb ?a ?b)] => destruct (negb (Js.eqb a b))
        end; rewrite ?(startTimer_no_listener props _ Hl); reflexivity.
    - unfold onPanThumb, panGate.
      destruct (isFirst e), (thumbHidden props axis s), (panning s), (isFinal e);
        reflexivity.
    - unfold onMousedown.
      destruct (thumbHidden props axis s); cbn [negb]; [reflexivity |].
      cbv zeta.
      match goal with
      | |- context [if ?b then _ else _] => destruct b
      end; reflexivity.
    - reflexivity.
    - reflexivity.
    - unfold localSetScrollPosition.
      destruct (negb (includes axisList axis)); reflexivity.
    - unfold setScrollPercentage, localSetScrollPosition.
      destruct (axisOfString axis); [| reflexivity].
      destruct (negb (includes axisList axis)); reflexivity.
    - reflexivity.
    - unfold advance. destruct (existsb _ _); reflexivity. }
  assert (Hrun : forall s, emitScrollCalls (run props evs s) = emitScrollCalls s).
  { induction evs as [| ev evs IH]; intros s; [reflexivity |].
    cbn [run fold_left].
    change (fold_left (fun s0 ev0 => handle props ev0 s0) evs (handle props ev s))
      with (run props evs (handle props ev s)).
    now rewrite IH, Hstep. }
  now rewrite Hrun.
Qed.

Lemma no_listener_no_emission_witness :
  emitScrollCalls
    (run defaultProps
       [EvContainerResize (Js.ofZ 100) (Js.ofZ 100);
        EvContentResize (Js.ofZ 400) (Js.ofZ 400);
        EvNativeScroll (Js.ofZ 120) (Js.ofZ 0)]
       initial) = 0%nat.
Proof.
  apply (no_listener_no_emission defaultProps
           [EvContainerResize (Js.ofZ 100) (Js.ofZ 100);
            EvContentResize (Js.ofZ 400) (Js.ofZ 400);
            EvNativeScroll (Js.ofZ 120) (Js.ofZ 0)]).
  reflexivity.
Defined.

(** A pan event with [isFinal = true] that is not a first one leaves the
    engine idle, and pan events that are not first ones do nothing from then
    on: the next drag has to begin with a first event. *)
Theorem stray_pan_after_final_is_ignored
  (props : Props) (e stray : PanEvent) (axis axis' : Axis) (st : State) :
  isFirst e = false ->
  isFinal e = true ->
  isFirst stray = false ->
  panning (onPanThumb props e axis st) = false
  /\ onPanThumb props stray axis' (onPanThumb props e axis st)
     = onPanThumb props e axis st.
Proof.
  intros Hf Hfin Hs.
  assert (Hp : panning (onPanThumb props e axis st) = false).
  { unfold onPanThumb, panGate. rewrite Hf, Hfin.
    destruct (panning st) eqn:Ep; cbn; [destruct axis; reflexivity | exact Ep]. }
  split; [exact Hp |].
  unfold onPanThumb at 1. unfold panGate. now rewrite Hs, Hp.
Qed.

Lemma stray_pan_after_final_is_ignored_witness :
  let st := with_panRefPos (Some (Js.ofZ 120))
              (with_panning true
                 (geometry vertical (Js.ofZ 100) (Js.ofZ 400) (Js.ofZ 120))) in
  let e := panEvent false true 10 down in
  let stray := panEvent false false 30 down in
  panning (onPanThumb defaultProps e vertical st) = false
  /\ onPanThumb defaultProps stray vertical (onPanThumb defaultProps e vertical st)
     = onPanThumb defaultProps e vertical st.
Proof.
  intros st e stray.
  apply (stray_pan_after_final_is_ignored defaultProps e stray vertical vertical st);
    reflexivity.
Defined.
